(** * WBGT Telegram bot: a shallow embedding and its checked properties

    The repository holds two generations of the same bot.

    - [wbgt_bot.py] (and its copy): fetch the WBGT payload for a date and
      reply with one text block per station
      ([format_wbgt_by_station_split], [handle_date]); module [Split].
    - the station-selection bot: group the payload by station, keep the
      grouped result in the per-user [context.user_data], offer one button
      per station and format a station on demand
      ([group_wbgt_by_station], [format_station_data], [handle_date],
      [button_handler]); module [ByStation].

    Python values are embedded as the inductive [pyval]; an operation that
    can raise returns a [result]; the handlers return the messages they
    send (a list of [event]) together with the new [user_data].  A string
    is a sequence of code points below 256.  Sending a message is taken to
    succeed: the chat transport is outside the program. *)

From Stdlib Require Import ZArith List String Ascii Bool Lia.
From Stdlib Require Import Permutation Sorted DecimalString.
Import ListNotations.

Local Open Scope string_scope.
Local Open Scope list_scope.
Local Open Scope Z_scope.

(** ** Exceptions and the error monad *)

(** The exception classes the code can meet.  [RequestError] stands for
    everything [fetch_wbgt] raises (transport failure, a non-success HTTP
    status, a body that is not JSON). *)
Inductive exn : Type :=
| AttributeError
| TypeError
| ValueError
| KeyError
| RequestError.

Inductive result (A : Type) : Type :=
| Ok (a : A)
| Raise (e : exn).
Arguments Ok {A} a.
Arguments Raise {A} e.

Definition bind {A B : Type} (m : result A) (k : A -> result B) : result B :=
  match m with
  | Ok a => k a
  | Raise e => Raise e
  end.

Notation "x <- m ;; k" := (bind m (fun x => k))
  (at level 61, m at next level, right associativity).

(** [for x in xs: acc = step acc x], stopping at the first exception. *)
Fixpoint foldM {A B : Type} (step : B -> A -> result B) (xs : list A) (acc : B)
  : result B :=
  match xs with
  | [] => Ok acc
  | x :: rest => acc' <- step acc x ;; foldM step rest acc'
  end.

(** [[f(x) for x in xs]], stopping at the first exception. *)
Fixpoint mapM {A B : Type} (f : A -> result B) (xs : list A) : result (list B) :=
  match xs with
  | [] => Ok []
  | x :: rest => y <- f x ;; ys <- mapM f rest ;; Ok (y :: ys)
  end.

(** ** Python values *)

(** JSON numbers arrive as Python [int] or [float] objects.  The bot only
    stores, compares and prints them, so they are kept abstract: a type with
    Python's [==], [<], truth value and [str]. *)
Class PyNum : Type := {
  num : Type;
  num_eqb : num -> num -> bool;     (* a == b; also how dict keys match *)
  num_ltb : num -> num -> bool;     (* a < b *)
  num_truthy : num -> bool;         (* bool(a): a != 0 *)
  num_of_bool : bool -> num;        (* bool is a subclass of int: True is 1 *)
  str_num : num -> string           (* str(a) *)
}.

(** What [response.json()] can return.  A JSON object has string keys; it is
    kept as an association list, looked up from the left. *)
#[warnings="-register-all"]
Inductive pyval `{PyNum} : Type :=
| PNone
| PBool (b : bool)
| PNum (n : num)
| PStr (s : string)
| PList (items : list pyval)
| PDict (fields : list (string * pyval)).

(** One reading as the code stores it: the tuple [(dt, wbgt, heat_stress)]. *)
Definition reading `{PyNum} : Type := (pyval * pyval * pyval)%type.

(** [station_data]: a [defaultdict(list)], in insertion order. *)
Definition station_dict `{PyNum} : Type := list (pyval * list reading).

(** A wall-clock time in microseconds with its UTC offset, [None] for a
    naive [datetime]. *)
Record datetime : Type := mkDatetime {
  wall : Z;
  utcoffset : option Z
}.

(** The rest of the Python runtime the bot calls but does not define. *)
Class PyRuntime `{PyNum} : Type := {
  (* str() of a list or dict (their repr) *)
  repr_container : pyval -> string;
  (* str(e) of a caught exception *)
  str_exn : exn -> string;
  (* datetime.datetime.fromisoformat; None when it raises ValueError *)
  fromisoformat : string -> option datetime
}.

(** ** Strings *)

Definition newline : string := String (ascii_of_nat 10) EmptyString.

(** ["sep".join(parts)]. *)
Fixpoint join (sep : string) (parts : list string) : string :=
  match parts with
  | [] => ""
  | [p] => p
  | p :: rest => p ++ sep ++ join sep rest
  end.

(** [c in s] for a one-character [c]. *)
Fixpoint contains_char (c : ascii) (s : string) : bool :=
  match s with
  | EmptyString => false
  | String a rest => Ascii.eqb a c || contains_char c rest
  end.

(** [s.replace(old, new)] for a one-character [old]: every occurrence. *)
Fixpoint replace_char (old : ascii) (new : string) (s : string) : string :=
  match s with
  | EmptyString => EmptyString
  | String a rest =>
      if Ascii.eqb a old then new ++ replace_char old new rest
      else String a (replace_char old new rest)
  end.

(** [str.isspace] on the code points below 256. *)
Definition is_space (c : ascii) : bool :=
  let n := nat_of_ascii c in
  ((9 <=? n) && (n <=? 13) || (28 <=? n) && (n <=? 32)
   || (n =? 133) || (n =? 160))%nat.

Fixpoint lstrip (s : string) : string :=
  match s with
  | EmptyString => EmptyString
  | String a rest => if is_space a then lstrip rest else s
  end.

Fixpoint rstrip (s : string) : string :=
  match s with
  | EmptyString => EmptyString
  | String a rest =>
      match rstrip rest with
      | EmptyString => if is_space a then EmptyString else String a EmptyString
      | kept => String a kept
      end
  end.

(** [s.strip()]. *)
Definition strip (s : string) : string := rstrip (lstrip s).

(** ** Operations on values *)

Section Values.
Context `{RT : PyRuntime}.

Fixpoint assoc (k : string) (fields : list (string * pyval)) : option pyval :=
  match fields with
  | [] => None
  | (k', v) :: rest => if String.eqb k k' then Some v else assoc k rest
  end.

(** [obj.get(key, default)]: only a dict has [get]; a key that is present
    wins whatever its value, [None] included. *)
Definition py_get (obj : pyval) (key : string) (default : pyval)
  : result pyval :=
  match obj with
  | PDict fields =>
      match assoc key fields with
      | Some v => Ok v
      | None => Ok default
      end
  | _ => Raise AttributeError
  end.

Definition chars (s : string) : list pyval :=
  map (fun c => PStr (String c EmptyString)) (list_ascii_of_string s).

(** [for x in obj]: a list gives its items, a dict its keys, a string its
    characters; nothing else is iterable. *)
Definition py_iter (obj : pyval) : result (list pyval) :=
  match obj with
  | PList items => Ok items
  | PDict fields => Ok (map (fun kv => PStr (fst kv)) fields)
  | PStr s => Ok (chars s)
  | _ => Raise TypeError
  end.

(** [bool(obj)]. *)
Definition py_truthy (obj : pyval) : bool :=
  match obj with
  | PNone => false
  | PBool b => b
  | PNum n => num_truthy n
  | PStr s => negb (String.eqb s "")
  | PList items => match items with [] => false | _ => true end
  | PDict fields => match fields with [] => false | _ => true end
  end.

(** [str(obj)], as an f-string renders it. *)
Definition py_str (obj : pyval) : string :=
  match obj with
  | PNone => "None"
  | PBool true => "True"
  | PBool false => "False"
  | PNum n => str_num n
  | PStr s => s
  | PList _ | PDict _ => repr_container obj
  end.

(** *** Dict keys *)

(** The hashable values, up to the equality a dict uses: [True] and [1]
    are one key. *)
Inductive key_class : Type :=
| KNone
| KNum (n : num)
| KStr (s : string).

Definition hash_key (v : pyval) : result key_class :=
  match v with
  | PNone => Ok KNone
  | PBool b => Ok (KNum (num_of_bool b))
  | PNum n => Ok (KNum n)
  | PStr s => Ok (KStr s)
  | PList _ | PDict _ => Raise TypeError   (* unhashable type *)
  end.

Definition key_class_eqb (a b : key_class) : bool :=
  match a, b with
  | KNone, KNone => true
  | KNum m, KNum n => num_eqb m n
  | KStr s, KStr t => String.eqb s t
  | _, _ => false
  end.

(** Whether the stored key [k'] is the key [k] being looked up. *)
Definition key_match (k k' : pyval) : bool :=
  match hash_key k, hash_key k' with
  | Ok a, Ok b => key_class_eqb a b
  | _, _ => false
  end.

(** [key in d]. *)
Definition dict_mem (k : pyval) (d : station_dict) : bool :=
  existsb (fun kv => key_match k (fst kv)) d.

(** The list stored under [k], if any. *)
Fixpoint dict_find (k : pyval) (d : station_dict) : option (list reading) :=
  match d with
  | [] => None
  | (k', rs) :: rest => if key_match k k' then Some rs else dict_find k rest
  end.

(** [d[k]] on a key that is hashable. *)
Definition dict_getitem (k : pyval) (d : station_dict) : result (list reading) :=
  match dict_find k d with
  | Some rs => Ok rs
  | None => Raise KeyError
  end.

Fixpoint dict_append_hashed (k : pyval) (r : reading) (d : station_dict)
  : station_dict :=
  match d with
  | [] => [(k, [r])]
  | (k', rs) :: rest =>
      if key_match k k' then (k', rs ++ [r]) :: rest
      else (k', rs) :: dict_append_hashed k r rest
  end.

(** [d[k].append(r)] on a [defaultdict(list)]: an unhashable [k] raises,
    a new [k] is added after the existing keys. *)
Definition dict_append (k : pyval) (r : reading) (d : station_dict)
  : result station_dict :=
  _ <- hash_key k ;; Ok (dict_append_hashed k r d).

Definition dict_keys (d : station_dict) : list pyval := map fst d.

End Values.

(** ** [sorted] *)

(** [sorted] is stable: an item moves left only past items that are
    strictly greater.  [ltb a b] is [a < b]. *)
Section StableSort.
Context {A : Type} (ltb : A -> A -> bool).

Fixpoint insert (x : A) (l : list A) : list A :=
  match l with
  | [] => [x]
  | y :: rest => if ltb y x then y :: insert x rest else x :: y :: rest
  end.

(** Each item is inserted in front of the sorted items that followed it,
    so it stays before its equals. *)
Fixpoint stable_sort (l : list A) : list A :=
  match l with
  | [] => []
  | x :: rest => insert x (stable_sort rest)
  end.
End StableSort.

(** *** Comparing [datetime] objects *)

(** The instant an aware [datetime] denotes; a naive one compares by its
    wall-clock fields. *)
Definition instant (d : datetime) : Z :=
  match utcoffset d with
  | Some off => wall d - off
  | None => wall d
  end.

Definition aware (d : datetime) : bool :=
  match utcoffset d with
  | Some _ => true
  | None => false
  end.

(** [a < b] raises [TypeError] between a naive and an aware [datetime].
    A sort of two or more items compares every item with some other one, so
    it goes through exactly when the items are all naive or all aware. *)
Definition comparable (ds : list datetime) : bool :=
  forallb aware ds || forallb (fun d => negb (aware d)) ds.

Definition decorated_ltb {A : Type} (a b : datetime * A) : bool :=
  instant (fst a) <? instant (fst b).

Section Sorted.
Context `{RT : PyRuntime}.

(** [datetime.datetime.fromisoformat(s)] on a string. *)
Definition parse_iso (s : string) : result datetime :=
  match fromisoformat s with
  | Some d => Ok d
  | None => Raise ValueError
  end.

(** The sort key of both formatters:
    [datetime.datetime.fromisoformat(x[0].replace("Z", "+00:00"))].
    Only a string has [replace]. *)
Definition sort_key (x : reading) : result datetime :=
  match fst (fst x) with
  | PStr s => parse_iso (replace_char "Z" "+00:00" s)
  | _ => Raise AttributeError
  end.

(** [sorted(readings, key=...)]: every key is computed first, then the
    items are ordered by their keys. *)
Definition sorted_by_timestamp (readings : list reading)
  : result (list reading) :=
  keys <- mapM sort_key readings ;;
  if comparable keys
  then Ok (map snd (stable_sort decorated_ltb (combine keys readings)))
  else Raise TypeError.

(** *** Ordering dict keys *)

Definition is_numlike (v : pyval) : bool :=
  match v with
  | PBool _ | PNum _ => true
  | _ => false
  end.

Definition is_str (v : pyval) : bool :=
  match v with
  | PStr _ => true
  | _ => false
  end.

(** [a < b] where it is defined on hashable values: between two strings
    (by code point) and between two numbers. *)
Definition py_ltb (a b : pyval) : bool :=
  match hash_key a, hash_key b with
  | Ok (KNum m), Ok (KNum n) => num_ltb m n
  | Ok (KStr s), Ok (KStr t) => String.ltb s t
  | _, _ => false
  end.

(** [sorted(d.keys())]: a single key is never compared; otherwise [None]
    against anything, or a string against a number, raises [TypeError]. *)
Definition sorted_keys (ks : list pyval) : result (list pyval) :=
  if (List.length ks <=? 1)%nat || forallb is_numlike ks || forallb is_str ks
  then Ok (stable_sort py_ltb ks)
  else Raise TypeError.

End Sorted.

(** ** What a handler does *)

Inductive event `{PyNum} : Type :=
| Fetch (date_input : string)                 (* requests.get(url, date=...) *)
| AnswerCallback                              (* query.answer() *)
| ReplyText (text : string)                   (* reply_text(text) *)
| ReplyKeyboard (text : string) (buttons : list pyval).
                                   (* reply_text(text, reply_markup=...) *)

(** [context.user_data]: the per-user dict of the framework.  The bot uses
    the one key ["station_data"]; [None] is a dict without that key. *)
Definition user_data `{PyNum} : Type := option station_dict.

Definition invalid_date_message : string :=
  "Invalid date format. Use YYYY-MM-DD or YYYY-MM-DDTHH:MM:SS".

Definition no_records_message : string := "No records found.".

Definition not_found_message : string :=
  "Station data not found. Please send the date again.".

(** ** [datetime.datetime.strptime(s, "%Y-%m-%d")]

    The library turns the format into the regular expression
    [(?P<Y>\d\d\d\d)-(?P<m>1[0-2]|0[1-9]|[1-9])-(?P<d>3[0-1]|[1-2]\d|0[1-9]|[1-9]| [1-9])],
    matches it at the start of the string, refuses text left over, and
    builds the date, which refuses year 0 and a day the month does not
    have.  Every refusal is a [ValueError]. *)

Definition in_range (lo hi : nat) (c : ascii) : bool :=
  let n := nat_of_ascii c in ((lo <=? n) && (n <=? hi))%nat.

Definition is_digit (c : ascii) : bool := in_range 48 57 c.

Definition digit (c : ascii) : Z := Z.of_nat (nat_of_ascii c) - 48.

(** The alternatives of [%m] that match at the start of [s], in the order
    the expression tries them, each with the text it leaves. *)
Definition month_alts (s : string) : list (Z * string) :=
  match s with
  | String a (String b rest) =>
      (if Ascii.eqb a "1" && in_range 48 50 b then [(10 + digit b, rest)] else [])
      ++ (if Ascii.eqb a "0" && in_range 49 57 b then [(digit b, rest)] else [])
      ++ (if in_range 49 57 a then [(digit a, String b rest)] else [])
  | String a EmptyString =>
      if in_range 49 57 a then [(digit a, EmptyString)] else []
  | EmptyString => []
  end.

(** The same for [%d]. *)
Definition day_alts (s : string) : list (Z * string) :=
  match s with
  | String a (String b rest) =>
      (if Ascii.eqb a "3" && in_range 48 49 b then [(30 + digit b, rest)] else [])
      ++ (if in_range 49 50 a && is_digit b then [(10 * digit a + digit b, rest)] else [])
      ++ (if Ascii.eqb a "0" && in_range 49 57 b then [(digit b, rest)] else [])
      ++ (if in_range 49 57 a then [(digit a, String b rest)] else [])
      ++ (if Ascii.eqb a " " && in_range 49 57 b then [(digit b, rest)] else [])
  | String a EmptyString =>
      if in_range 49 57 a then [(digit a, EmptyString)] else []
  | EmptyString => []
  end.

(** Month, day and the text left, for the first alternative of [%m] after
    which ["-"] and some alternative of [%d] match. *)
Fixpoint match_month_day (alts : list (Z * string)) : option (Z * Z * string) :=
  match alts with
  | [] => None
  | (m, String "-" after) :: more =>
      match day_alts after with
      | (d, unread) :: _ => Some (m, d, unread)
      | [] => match_month_day more
      end
  | _ :: more => match_month_day more
  end.

(** [format_regex.match(data_string)]: year, month, day and the text left. *)
Definition match_Ymd (s : string) : option (Z * Z * Z * string) :=
  match s with
  | String y1 (String y2 (String y3 (String y4 (String "-" after)))) =>
      if is_digit y1 && is_digit y2 && is_digit y3 && is_digit y4 then
        match match_month_day (month_alts after) with
        | Some (m, d, unread) =>
            Some (1000 * digit y1 + 100 * digit y2 + 10 * digit y3 + digit y4,
                  m, d, unread)
        | None => None
        end
      else None
  | _ => None
  end.

Definition is_leap (y : Z) : bool :=
  (y mod 4 =? 0) && (negb (y mod 100 =? 0) || (y mod 400 =? 0)).

Definition days_in_month (y m : Z) : Z :=
  if m =? 2 then (if is_leap y then 29 else 28)
  else if (m =? 4) || (m =? 6) || (m =? 9) || (m =? 11) then 30
  else 31.

(** [datetime.date(y, m, d)] exists. *)
Definition valid_date (y m d : Z) : bool :=
  (1 <=? y) && (y <=? 9999) && (1 <=? m) && (m <=? 12)
  && (1 <=? d) && (d <=? days_in_month y m).

Definition strptime_Ymd (s : string) : result (Z * Z * Z) :=
  match match_Ymd s with
  | Some (y, m, d, EmptyString) =>
      if valid_date y m d then Ok (y, m, d) else Raise ValueError
  | Some (_, _, _, String _ _) => Raise ValueError   (* unconverted data remains *)
  | None => Raise ValueError                         (* does not match format *)
  end.

(** ** The code shared by both bots *)

Section Shared.
Context `{RT : PyRuntime}.

(** The [try] block that opens both [handle_date]s. *)
Definition check_date (date_input : string) : result unit :=
  if contains_char "T" date_input then
    _ <- parse_iso date_input ;; Ok tt
  else
    _ <- strptime_Ymd date_input ;; Ok tt.

(** [station.get("townCenter", station.get("name", station.get("id")))]:
    the arguments are evaluated first, innermost first. *)
Definition town_of (station : pyval) : result pyval :=
  by_id <- py_get station "id" PNone ;;
  by_name <- py_get station "name" by_id ;;
  py_get station "townCenter" by_name.

(** The body of [for rd in readings]. *)
Definition add_reading (dt : pyval) (station_data : station_dict) (rd : pyval)
  : result station_dict :=
  station <- py_get rd "station" (PDict []) ;;
  town <- town_of station ;;
  wbgt <- py_get rd "wbgt" PNone ;;
  heat_stress <- py_get rd "heatStress" PNone ;;
  dict_append town (dt, wbgt, heat_stress) station_data.

(** The body of [for record in records]. *)
Definition add_record (station_data : station_dict) (record : pyval)
  : result station_dict :=
  dt <- py_get record "datetime" PNone ;;
  item <- py_get record "item" (PDict []) ;;
  readings <- py_get item "readings" (PList []) ;;
  rds <- py_iter readings ;;
  foldM (add_reading dt) rds station_data.

(** [data.get("data", {}).get("records", [])]. *)
Definition records_of (data : pyval) : result pyval :=
  inner <- py_get data "data" (PDict []) ;;
  py_get inner "records" (PList []).

(** One line of a station block. *)
Definition reading_line (x : reading) : string :=
  let '(dt, wbgt, heat_stress) := x in
  "  " ++ py_str dt ++ "  WBGT: " ++ py_str wbgt
       ++ "  HeatStress: " ++ py_str heat_stress.

Definition station_header (station : pyval) : string :=
  "Station: " ++ py_str station.

End Shared.

(** What one run of a handler leaves behind: the calls it made, the
    [user_data] it leaves, and the exception that escaped it, if any. *)
Record outcome `{PyNum} : Type := mkOutcome {
  sent : list event;
  stored : user_data;
  raised : option exn
}.
Arguments mkOutcome {_} sent stored raised.

Definition error_reply `{PyRuntime} (e : exn) : event :=
  ReplyText ("Error fetching WBGT data: " ++ str_exn e).

(** ** The station-selection bot *)

Module ByStation.
Section Bot.
Context `{RT : PyRuntime}.

(** The upstream source: what [fetch_wbgt(date_input)] returns or raises. *)
Variable fetch_wbgt : string -> result pyval.

Definition group_wbgt_by_station (data : pyval) : result station_dict :=
  records <- records_of data ;;
  recs <- py_iter records ;;
  foldM add_record recs [].

Definition format_station_data (station : pyval) (readings : list reading)
  : result string :=
  readings_sorted <- sorted_by_timestamp readings ;;
  Ok (join newline (station_header station :: map reading_line readings_sorted)).

Definition handle_date (text : string) (ud : user_data) : outcome :=
  let date_input := strip text in
  match check_date date_input with
  | Raise ValueError =>
      mkOutcome [ReplyText invalid_date_message] ud None
  | Raise e => mkOutcome [] ud (Some e)
  | Ok _ =>
      match data <- fetch_wbgt date_input ;; group_wbgt_by_station data with
      | Raise e => mkOutcome [Fetch date_input; error_reply e] ud None
      | Ok [] =>
          mkOutcome [Fetch date_input; ReplyText no_records_message] ud None
      | Ok station_data =>
          (* context.user_data["station_data"] = station_data *)
          match sorted_keys (dict_keys station_data) with
          | Ok stations =>
              mkOutcome [Fetch date_input;
                         ReplyKeyboard "Choose a station:" stations]
                        (Some station_data) None
          | Raise e =>
              mkOutcome [Fetch date_input; error_reply e]
                        (Some station_data) None
          end
      end
  end.

(** [station] is [query.data], the text of the button pressed. *)
Definition button_handler (station : string) (ud : user_data) : outcome :=
  let station_data := match ud with Some d => d | None => [] end in
  if dict_mem (PStr station) station_data then
    match readings <- dict_getitem (PStr station) station_data ;;
          format_station_data (PStr station) readings with
    | Ok text => mkOutcome [AnswerCallback; ReplyText text] ud None
    | Raise e => mkOutcome [AnswerCallback] ud (Some e)
    end
  else
    mkOutcome [AnswerCallback; ReplyText not_found_message] ud None.

End Bot.
End ByStation.

(** ** The all-stations bot *)

Module Split.
Section Bot.
Context `{RT : PyRuntime}.

Variable fetch_wbgt : string -> result pyval.

(** One block of [messages]. *)
Definition station_block (station_data : station_dict) (station : pyval)
  : result string :=
  readings <- dict_getitem station station_data ;;
  readings_sorted <- sorted_by_timestamp readings ;;
  Ok (join newline (station_header station :: map reading_line readings_sorted)).

Definition format_wbgt_by_station_split (data : pyval) : result (list string) :=
  records <- records_of data ;;
  if negb (py_truthy records) then Ok [no_records_message]
  else
    recs <- py_iter records ;;
    station_data <- foldM add_record recs [] ;;
    stations <- sorted_keys (dict_keys station_data) ;;
    mapM (station_block station_data) stations.

Definition handle_date (text : string) : list event * option exn :=
  let date_input := strip text in
  match check_date date_input with
  | Raise ValueError => ([ReplyText invalid_date_message], None)
  | Raise e => ([], Some e)
  | Ok _ =>
      match data <- fetch_wbgt date_input ;; format_wbgt_by_station_split data with
      | Ok messages => (Fetch date_input :: map ReplyText messages, None)
      | Raise e => ([Fetch date_input; error_reply e], None)
      end
  end.

End Bot.
End Split.

(** ** A runtime to run the definitions on

    Integers for numbers, and for [fromisoformat] the timestamps every
    version of the library reads: [YYYY-MM-DDTHH:MM:SS], alone or followed
    by an offset [+HH:MM] or [-HH:MM]. *)

Definition two_digits (a b : ascii) : option Z :=
  if is_digit a && is_digit b then Some (10 * digit a + digit b) else None.

Definition days_before_year (y : Z) : Z :=
  365 * (y - 1) + (y - 1) / 4 - (y - 1) / 100 + (y - 1) / 400.

Definition days_before_month (y m : Z) : Z :=
  fold_right Z.add 0
    (map (days_in_month y) (filter (fun i => i <? m) [1; 2; 3; 4; 5; 6; 7; 8; 9; 10; 11])).

Definition microseconds (y m d hh mm ss : Z) : Z :=
  ((((days_before_year y + days_before_month y m + d) * 24 + hh) * 60 + mm) * 60 + ss)
  * 1000000.

Definition iso_offset (tail : list ascii) : option (option Z) :=
  match tail with
  | [] => Some None
  | [sign; h1; h2; colon; m1; m2] =>
      match two_digits h1 h2, two_digits m1 m2 with
      | Some hh, Some mm =>
          if Ascii.eqb colon ":" && (hh <? 24) && (mm <? 60) then
            if Ascii.eqb sign "+" then Some (Some ((hh * 3600 + mm * 60) * 1000000))
            else if Ascii.eqb sign "-" then Some (Some (- ((hh * 3600 + mm * 60) * 1000000)))
            else None
          else None
      | _, _ => None
      end
  | _ => None
  end.

Definition iso_seconds (s : string) : option datetime :=
  match list_ascii_of_string s with
  | y1 :: y2 :: y3 :: y4 :: d1 :: mo1 :: mo2 :: d2 :: da1 :: da2 :: t
       :: h1 :: h2 :: c1 :: mi1 :: mi2 :: c2 :: s1 :: s2 :: tail =>
      if is_digit y1 && is_digit y2 && is_digit y3 && is_digit y4
         && Ascii.eqb d1 "-" && Ascii.eqb d2 "-" && Ascii.eqb t "T"
         && Ascii.eqb c1 ":" && Ascii.eqb c2 ":" then
        let y := 1000 * digit y1 + 100 * digit y2 + 10 * digit y3 + digit y4 in
        match two_digits mo1 mo2, two_digits da1 da2,
              two_digits h1 h2, two_digits mi1 mi2, two_digits s1 s2,
              iso_offset tail with
        | Some m, Some d, Some hh, Some mm, Some ss, Some off =>
            if valid_date y m d && (hh <? 24) && (mm <? 60) && (ss <? 60)
            then Some (mkDatetime (microseconds y m d hh mm ss) off)
            else None
        | _, _, _, _, _, _ => None
        end
      else None
  | _ => None
  end.

Definition int_num : PyNum := {|
  num := Z;
  num_eqb := Z.eqb;
  num_ltb := Z.ltb;
  num_truthy := fun z => negb (z =? 0);
  num_of_bool := fun b : bool => if b then 1 else 0;
  str_num := fun z => NilZero.string_of_int (Z.to_int z)
|}.

(** A JSON integer. *)
Definition PInt (z : Z) : @pyval int_num := @PNum int_num z.

(** [repr_container] and [str_exn] only name what they would print. *)
Definition int_runtime : @PyRuntime int_num := {|
  repr_container := fun _ => "<repr>";
  str_exn := fun e =>
    match e with
    | AttributeError => "<AttributeError>"
    | TypeError => "<TypeError>"
    | ValueError => "<ValueError>"
    | KeyError => "<KeyError>"
    | RequestError => "<RequestError>"
    end;
  fromisoformat := iso_seconds
|}.

(** ** What the specification says, for comparison *)

Section SpecWords.
Context `{NM : PyNum}.

(** "first present, non-null value", "first non-empty wins". *)
Definition is_null_or_empty (v : pyval) : bool :=
  match v with
  | PNone => true
  | PStr EmptyString => true
  | _ => false
  end.

Fixpoint first_non_null (chain : list string) (fields : list (string * pyval))
  : option pyval :=
  match chain with
  | [] => None
  | k :: more =>
      match assoc k fields with
      | Some v => if is_null_or_empty v then first_non_null more fields else Some v
      | None => first_non_null more fields
      end
  end.

(** The first key of the chain that the object has, with its value. *)
Fixpoint first_present (chain : list string) (fields : list (string * pyval))
  : option pyval :=
  match chain with
  | [] => None
  | k :: more =>
      match assoc k fields with
      | Some v => Some v
      | None => first_present more fields
      end
  end.

(** "the data field or the records field under it is missing": the
    negation of both being there. *)
Definition records_field_present (body : pyval) : bool :=
  match body with
  | PDict fields =>
      match assoc "data" fields with
      | Some (PDict inner) =>
          match assoc "records" inner with
          | Some _ => true
          | None => false
          end
      | _ => false
      end
  | _ => false
  end.

Definition station_chain : list string := ["townCenter"; "name"; "id"].

Definition or_none (o : option pyval) : pyval :=
  match o with
  | Some v => v
  | None => PNone
  end.

End SpecWords.

(** ** Payloads used in the examples *)

Section Payloads.
Context `{NM : PyNum}.

Definition station_reading (station wbgt heat_stress : pyval) : pyval :=
  PDict [("station", station); ("wbgt", wbgt); ("heatStress", heat_stress)].

Definition record (datetime : string) (readings : list pyval) : pyval :=
  PDict [("datetime", PStr datetime); ("item", PDict [("readings", PList readings)])].

Definition payload (records : list pyval) : pyval :=
  PDict [("data", PDict [("records", PList records)])].

Definition named (name : string) : pyval := PDict [("name", PStr name)].

(** A station whose [townCenter] is [null] and whose [name] is set. *)
Definition null_town_fields : list (string * pyval) :=
  [("townCenter", PNone); ("name", PStr "Changi")].

(** One record whose reading list is empty. *)
Definition payload_without_readings : pyval :=
  payload [record "2024-06-01T08:00:00Z" []].

(** [{"data": null}]. *)
Definition payload_null_data : pyval := PDict [("data", PNone)].

End Payloads.

(** ** The vocabulary of the properties *)

(** Ordering items by an integer key. *)
Section KeyOrder.
Context {A : Type} (m : A -> Z).

Definition key_ltb (a b : A) : bool := m a <? m b.
Definition key_le (a b : A) : Prop := m a <= m b.
End KeyOrder.

Section Vocabulary.
Context `{RT : PyRuntime}.


Definition group_of (k : pyval) (d : station_dict) : list reading :=
  match dict_find k d with
  | Some rs => rs
  | None => []
  end.

(** The body is an object, and either has no [data] key, or its [data] is
    an object with no [records] key. *)
Definition records_path_missing (body : pyval) : bool :=
  match body with
  | PDict fields =>
      match assoc "data" fields with
      | None => true
      | Some (PDict inner) =>
          match assoc "records" inner with
          | None => true
          | Some _ => false
          end
      | Some _ => false
      end
  | _ => false
  end.

(** The body is not an object, or its [data] is there and is not an
    object. *)
Definition data_not_an_object (body : pyval) : bool :=
  match body with
  | PDict fields =>
      match assoc "data" fields with
      | Some (PDict _) => false
      | Some _ => true
      | None => false
      end
  | _ => true
  end.

(** The keys of the stored result, none when nothing is stored. *)
Definition stored_keys (ud : user_data) : list pyval :=
  match ud with
  | Some d => dict_keys d
  | None => []
  end.

(** What a choice shows when it is answered from the result [d]. *)
Definition answer_from (d : station_dict) (station : string) : outcome :=
  ByStation.button_handler station (Some d).

(** The parsed timestamp of a reading as an integer to compare; 0 stands
    for a reading whose key cannot be computed (its sort raises). *)
Definition timestamp (x : reading) : Z :=
  match sort_key x with
  | Ok d => instant d
  | Raise _ => 0
  end.

(** Every timestamp of the group parses, and the parsed values can be
    compared with each other (all carry an offset, or none does). *)
Definition timestamps_comparable (readings : list reading) : Prop :=
  exists keys,
    mapM sort_key readings = Ok keys /\ comparable keys = true.

Definition decorate (x : reading) : datetime * reading :=
  (match sort_key x with Ok d => d | Raise _ => mkDatetime 0 None end, x).


(** The key and the tuple one reading is filed under. *)
Definition reading_entry (dt rd : pyval) : result (pyval * reading) :=
  station <- py_get rd "station" (PDict []) ;;
  town <- town_of station ;;
  wbgt <- py_get rd "wbgt" PNone ;;
  heat_stress <- py_get rd "heatStress" PNone ;;
  _ <- hash_key town ;;
  Ok (town, (dt, wbgt, heat_stress)).

Definition record_entries (record : pyval) : result (list (pyval * reading)) :=
  dt <- py_get record "datetime" PNone ;;
  item <- py_get record "item" (PDict []) ;;
  readings <- py_get item "readings" (PList []) ;;
  rds <- py_iter readings ;;
  mapM (reading_entry dt) rds.

Definition file_entry (d : station_dict) (e : pyval * reading) : station_dict :=
  dict_append_hashed (fst e) (snd e) d.

(** No group is empty: a key is created with its first tuple. *)
Definition groups_nonempty (d : station_dict) : Prop :=
  Forall (fun kv => snd kv <> []) d.

(** What a choice of [k] is answered from: the group of [k], sorted. *)
Definition station_view (d : station_dict) (k : pyval)
  : option (result (list reading)) :=
  option_map sorted_by_timestamp (dict_find k d).

(** In every group the timestamps parse, can be compared, and are
    pairwise distinct. *)
Definition no_timestamp_ties (d : station_dict) : Prop :=
  forall k rs, dict_find k d = Some rs ->
               timestamps_comparable rs /\ NoDup (map timestamp rs).

End Vocabulary.





(** ** Example data *)

Section ExampleData.
#[local] Existing Instance int_num.
#[local] Existing Instance int_runtime.

Definition changi_0800 : pyval :=
  record "2024-06-01T08:00:00Z"
    [station_reading (named "Changi") (PInt 29) (PStr "Moderate")].

Definition changi_0700 : pyval :=
  record "2024-06-01T07:00:00Z"
    [station_reading (named "Changi") (PInt 28) (PStr "Low")].

(** A second record for 08:00, with another value. *)
Definition changi_0800_again : pyval :=
  record "2024-06-01T08:00:00Z"
    [station_reading (named "Changi") (PInt 30) (PStr "High")].

Definition sentosa_0900 : pyval :=
  record "2024-06-02T09:00:00Z"
    [station_reading (named "Sentosa") PNone PNone].

Definition r_0700 : reading := (PStr "2024-06-01T07:00:00Z", PInt 28, PStr "Low").

Definition r_0800 : reading := (PStr "2024-06-01T08:00:00Z", PInt 29, PStr "Moderate").

Definition r_0800_again : reading := (PStr "2024-06-01T08:00:00Z", PInt 30, PStr "High").

Definition r_sentosa : reading := (PStr "2024-06-02T09:00:00Z", PNone, PNone).


Definition changi_session : user_data := Some [(PStr "Changi", [r_0800])].

Definition upstream_by_date (date_input : string) : result pyval :=
  if String.eqb date_input "2024-06-01" then Ok (payload [changi_0800])
  else Ok (payload [sentosa_0900]).

End ExampleData.

(** ** The upstream request *)

(** What [requests.get] hands back: the status code, and what
    [response.json()] returns or raises. *)
Record response `{PyNum} : Type := mkResponse {
  status_code : Z;
  json : result pyval
}.
Arguments mkResponse {_} status_code json.

(** [wbgt_bot.py]. *)
Module WbgtBot.
Section Fetch.
Context `{NM : PyNum}.

(** [requests.get(url, params={"api": "wbgt", "date": date_input})]: the
    response, or the exception of the transport. *)
Variable get : string -> result response.

Definition fetch_wbgt (date_input : string) : result pyval :=
  response <- get date_input ;;
  if negb (status_code response =? 200) then Raise RequestError
  else json response.

End Fetch.
End WbgtBot.

(** The two later copies: [response.raise_for_status()] raises on the
    statuses 400 to 599. *)
Module Copies.
Section Fetch.
Context `{NM : PyNum}.

Variable get : string -> result response.

Definition fetch_wbgt (date_input : string) : result pyval :=
  response <- get date_input ;;
  if (400 <=? status_code response) && (status_code response <? 600)
  then Raise RequestError
  else json response.

End Fetch.
End Copies.

(** ** More vocabulary *)

(** The string is empty or starts with a character that is not white
    space. *)
Definition starts_clean (u : string) : Prop :=
  match u with
  | EmptyString => True
  | String a _ => is_space a = false
  end.

Section MoreVocabulary.
Context `{RT : PyRuntime}.

(** The key and tuple of every reading of the payload, in the order the
    two loops visit them. *)
Definition payload_entries (data : pyval) : result (list (pyval * reading)) :=
  records <- records_of data ;;
  recs <- py_iter records ;;
  ess <- mapM record_entries recs ;;
  Ok (List.concat ess).

(** All the tuples a grouping holds, group after group. *)
Definition all_groups (d : station_dict) : list reading :=
  List.concat (map snd d).

(** No key of the dict matches a key stored before it. *)
Fixpoint keys_distinct (d : station_dict) : Prop :=
  match d with
  | [] => True
  | kv :: rest =>
      Forall (fun kv' => key_match (fst kv') (fst kv) = false) rest
      /\ keys_distinct rest
  end.

(** [b < a] does not hold. *)
Definition not_after (a b : pyval) : Prop := py_ltb b a = false.

Definition is_fetch (e : event) : bool :=
  match e with
  | Fetch _ => true
  | _ => false
  end.


End MoreVocabulary.

Section MoreExampleData.
#[local] Existing Instance int_num.
#[local] Existing Instance int_runtime.

(** Two stations over two records, "Changi" met twice. *)
Definition two_station_payload : pyval :=
  payload
    [record "2024-06-01T08:00:00Z"
       [station_reading (named "Sentosa") (PInt 30) (PStr "High");
        station_reading (named "Changi") (PInt 29) (PStr "Moderate")];
     record "2024-06-01T07:00:00Z"
       [station_reading (named "Changi") (PInt 28) (PStr "Low")]].

Definition two_station_groups : station_dict :=
  [(PStr "Sentosa", [(PStr "2024-06-01T08:00:00Z", PInt 30, PStr "High")]);
   (PStr "Changi", [r_0800; r_0700])].

(** The upstream answers every request with the two stations. *)
Definition upstream_two_stations (date_input : string) : result pyval :=
  Ok two_station_payload.

(** The server answers 204 with an empty JSON object. *)
Definition get_no_content (date_input : string) : result response :=
  Ok (mkResponse 204 (Ok (PDict []))).

(** The server answers 500. *)
Definition get_server_error (date_input : string) : result response :=
  Ok (mkResponse 500 (Raise RequestError)).

End MoreExampleData.

(** * Properties *)

(** ** Station identity *)

Section StationKey.
Context `{RT : PyRuntime}.

Lemma town_of_dict (fields : list (string * pyval)) :
  town_of (PDict fields) = Ok (or_none (first_present station_chain fields)).
Proof.
  unfold town_of, station_chain, py_get; simpl.
  destruct (assoc "townCenter" fields) as [t|];
    destruct (assoc "name" fields) as [n|];
    destruct (assoc "id" fields) as [i|]; reflexivity.
Qed.

(** C1, as the code has it: for a reading whose station is an object, the
    grouping step files the reading under the value of the first of
    townCenter, name, id that the object HAS as a key, whatever that value
    is (null included), and under None when it has none of them. *)
Theorem station_key_is_first_present_key :
  forall (dt : pyval) (station_data : station_dict)
         (rd_fields station_fields : list (string * pyval)),
    assoc "station" rd_fields = Some (PDict station_fields) ->
    add_reading dt station_data (PDict rd_fields)
    = dict_append (or_none (first_present station_chain station_fields))
                  (dt, or_none (assoc "wbgt" rd_fields),
                       or_none (assoc "heatStress" rd_fields))
                  station_data.
Proof.
  intros dt sd rf sf Hst.
  unfold add_reading. simpl. rewrite Hst. simpl.
  rewrite town_of_dict. simpl.
  destruct (assoc "wbgt" rf), (assoc "heatStress" rf); reflexivity.
Qed.


Lemma key_match_none_r (k : pyval) :
  key_match k PNone = true -> k = PNone.
Proof. destruct k; simpl; intros E; try discriminate; try reflexivity;
       destruct b; discriminate. Qed.




End StationKey.

(** ** Payloads without records *)

Section MissingRecords.
Context `{RT : PyRuntime}.

Lemma records_of_missing (body : pyval) :
  records_path_missing body = true -> records_of body = Ok (PList []).
Proof.
  unfold records_path_missing, records_of, py_get.
  destruct body as [| | | | |fields]; try discriminate.
  destruct (assoc "data" fields) as [[| | | | |inner]|]; try discriminate.
  - simpl. destruct (assoc "records" inner); [discriminate|reflexivity].
  - reflexivity.
Qed.

Lemma records_of_not_an_object (body : pyval) :
  data_not_an_object body = true -> records_of body = Raise AttributeError.
Proof.
  unfold data_not_an_object, records_of, py_get.
  destruct body as [| | | | |fields]; try reflexivity.
  destruct (assoc "data" fields) as [[| | | | |inner]|];
    try discriminate; reflexivity.
Qed.

Lemma records_of_raises (body : pyval) (e : exn) :
  records_of body = Raise e ->
  data_not_an_object body = true /\ e = AttributeError.
Proof.
  unfold data_not_an_object, records_of, py_get.
  destruct body as [| | | | |fields]; simpl;
    try (intros E; inversion E; split; reflexivity).
  destruct (assoc "data" fields) as [v|]; simpl; [|discriminate].
  destruct v as [| | | | |inner]; simpl;
    try (intros E; inversion E; split; reflexivity).
  destruct (assoc "records" inner); discriminate.
Qed.

(** C8, as the code has it.  When the parsed body is a JSON object whose
    data key is absent, or whose data is an object whose records key is
    absent, the payload is an empty record list: grouping gives no
    station, the all-stations formatter gives the one block
    "No records found.", and the station bot, given a text that passes
    the date check, replies "No records found." and keeps the session.
    When the body is not an object, or its data is present and is not an
    object (null for instance), the lookup of the records raises
    AttributeError: so do grouping and the all-stations formatter, and
    each bot, given a text that passes the date check, reports it in its
    one error reply, the session kept.  The lookup raises in no other
    case. *)
Theorem missing_records_path_is_empty_list :
  forall (body : pyval),
    (records_path_missing body = true ->
     ByStation.group_wbgt_by_station body = Ok []
     /\ Split.format_wbgt_by_station_split body = Ok [no_records_message]
     /\ (forall fetch_wbgt text ud,
            check_date (strip text) = Ok tt ->
            fetch_wbgt (strip text) = Ok body ->
            ByStation.handle_date fetch_wbgt text ud
            = mkOutcome [Fetch (strip text); ReplyText no_records_message]
                        ud None))
    /\ (data_not_an_object body = true ->
        records_of body = Raise AttributeError
        /\ ByStation.group_wbgt_by_station body = Raise AttributeError
        /\ Split.format_wbgt_by_station_split body = Raise AttributeError
        /\ (forall fetch_wbgt text ud,
               check_date (strip text) = Ok tt ->
               fetch_wbgt (strip text) = Ok body ->
               ByStation.handle_date fetch_wbgt text ud
               = mkOutcome [Fetch (strip text); error_reply AttributeError]
                           ud None
               /\ Split.handle_date fetch_wbgt text
                  = ([Fetch (strip text); error_reply AttributeError], None)))
    /\ (forall e, records_of body = Raise e ->
                  data_not_an_object body = true /\ e = AttributeError).
Proof.
  intros body. split; [|split].
  - intros Hmiss. pose proof (records_of_missing body Hmiss) as Hrec.
    assert (Hg : ByStation.group_wbgt_by_station body = Ok []).
    { unfold ByStation.group_wbgt_by_station. rewrite Hrec. reflexivity. }
    split; [exact Hg|split].
    + unfold Split.format_wbgt_by_station_split. rewrite Hrec. reflexivity.
    + intros fetch text ud Hdate Hfetch.
      unfold ByStation.handle_date. rewrite Hdate, Hfetch. simpl.
      rewrite Hg. reflexivity.
  - intros Hbad. pose proof (records_of_not_an_object body Hbad) as Hrec.
    assert (Hg : ByStation.group_wbgt_by_station body = Raise AttributeError).
    { unfold ByStation.group_wbgt_by_station. rewrite Hrec. reflexivity. }
    assert (Hs : Split.format_wbgt_by_station_split body = Raise AttributeError).
    { unfold Split.format_wbgt_by_station_split. rewrite Hrec. reflexivity. }
    split; [exact Hrec|]. split; [exact Hg|]. split; [exact Hs|].
    intros fetch text ud Hdate Hfetch.
    unfold ByStation.handle_date, Split.handle_date.
    rewrite Hdate, Hfetch. cbn [bind]. rewrite Hg, Hs. split; reflexivity.
  - apply records_of_raises.
Qed.

(** The station bot reports an empty grouping whatever the record list
    was: the check is on [station_data], not on [records]. *)
Lemma handle_date_no_groups fetch_wbgt text ud body :
  check_date (strip text) = Ok tt ->
  fetch_wbgt (strip text) = Ok body ->
  ByStation.group_wbgt_by_station body = Ok [] ->
  ByStation.handle_date fetch_wbgt text ud
  = mkOutcome [Fetch (strip text); ReplyText no_records_message] ud None.
Proof.
  intros Hdate Hfetch Hg. unfold ByStation.handle_date.
  rewrite Hdate, Hfetch. simpl. rewrite Hg. reflexivity.
Qed.

End MissingRecords.

(** ** Choices and the stored result *)

Section Session.
Context `{RT : PyRuntime}.

Lemma key_match_str (s : string) (k : pyval) :
  key_match (PStr s) k = true <-> k = PStr s.
Proof.
  split.
  - destruct k as [| b | n | t | |]; simpl; try discriminate.
    intros E. apply String.eqb_eq in E. subst. reflexivity.
  - intros ->. simpl. apply String.eqb_refl.
Qed.

Lemma dict_mem_str (s : string) (d : station_dict) :
  dict_mem (PStr s) d = true <-> In (PStr s) (dict_keys d).
Proof.
  unfold dict_mem, dict_keys. rewrite existsb_exists, in_map_iff.
  split.
  - intros [kv [Hin Hm]]. apply key_match_str in Hm. exists kv. split; auto.
  - intros [kv [Hk Hin]]. exists kv. split; [exact Hin|].
    apply key_match_str. exact Hk.
Qed.

(** C6: a choice that is not a key of the stored result, or that meets
    no stored result at all, is answered with the fixed "Station data not
    found. Please send the date again." message; the stored session is
    left as it was and nothing is raised. *)
Theorem unknown_choice_is_reprompted :
  forall (station : string) (ud : user_data),
    ~ In (PStr station) (stored_keys ud) ->
    ByStation.button_handler station ud
    = mkOutcome [AnswerCallback; ReplyText not_found_message] ud None.
Proof.
  intros station ud Hnot. unfold ByStation.button_handler.
  destruct (dict_mem (PStr station) match ud with Some d => d | None => [] end)
    eqn:Hmem; [|reflexivity].
  exfalso. apply Hnot. apply dict_mem_str in Hmem.
  destruct ud; exact Hmem.
Qed.

(** C7: a text that passes the date check, is fetched and groups into at
    least one station replaces whatever was stored for the user by the
    new grouping, in one step; a choice made afterwards is answered from
    that grouping alone, whatever the earlier query was, and leaves it in
    place. *)
Theorem successful_query_replaces_session :
  forall (fetch_earlier fetch_wbgt : string -> result pyval)
         (earlier text : string) (ud : user_data)
         (body : pyval) (station_data : station_dict),
    check_date (strip text) = Ok tt ->
    fetch_wbgt (strip text) = Ok body ->
    ByStation.group_wbgt_by_station body = Ok station_data ->
    station_data <> [] ->
    let before := stored (ByStation.handle_date fetch_earlier earlier ud) in
    let after := stored (ByStation.handle_date fetch_wbgt text before) in
    after = Some station_data
    /\ (forall station,
           ByStation.button_handler station after
           = answer_from station_data station
           /\ stored (ByStation.button_handler station after)
              = Some station_data).
Proof.
  intros fe f earlier text ud body sd Hdate Hfetch Hg Hne before after.
  assert (Hafter : after = Some sd).
  { unfold after, ByStation.handle_date.
    rewrite Hdate, Hfetch. simpl. rewrite Hg.
    destruct sd as [|kv sd]; [contradiction|].
    destruct (sorted_keys (dict_keys (kv :: sd))); reflexivity. }
  split; [exact Hafter|].
  intros station. rewrite Hafter. split; [reflexivity|].
  unfold ByStation.button_handler.
  destruct (dict_mem (PStr station) sd); [|reflexivity].
  destruct (readings <- dict_getitem (PStr station) sd ;;
            ByStation.format_station_data (PStr station) readings);
    reflexivity.
Qed.

End Session.

(** ** Sorting by a key *)

Section SortFacts.
Context {A : Type} (m : A -> Z).

Lemma insert_perm (x : A) (l : list A) :
  Permutation (insert (key_ltb m) x l) (x :: l).
Proof.
  induction l as [|y l IH]; simpl.
  - apply Permutation_refl.
  - destruct ((key_ltb m) y x).
    + apply Permutation_trans with (y :: x :: l).
      * apply perm_skip, IH.
      * apply perm_swap.
    + apply Permutation_refl.
Qed.

Lemma stable_sort_perm (l : list A) :
  Permutation (stable_sort (key_ltb m) l) l.
Proof.
  induction l as [|x l IH]; simpl.
  - apply perm_nil.
  - apply Permutation_trans with (x :: stable_sort (key_ltb m) l).
    + apply insert_perm.
    + apply perm_skip, IH.
Qed.

Lemma insert_sorted (x : A) (l : list A) :
  StronglySorted (key_le m) l -> StronglySorted (key_le m) (insert (key_ltb m) x l).
Proof.
  induction l as [|y l IH]; simpl; intros Hs.
  - constructor; constructor.
  - apply StronglySorted_inv in Hs. destruct Hs as [Hl Hy].
    unfold key_ltb at 1. destruct (m y <? m x) eqn:E.
    + apply Z.ltb_lt in E. constructor.
      * apply IH, Hl.
      * apply (Permutation_Forall (Permutation_sym (insert_perm x l))).
        constructor; [unfold key_le; lia | exact Hy].
    + apply Z.ltb_ge in E. constructor.
      * constructor; assumption.
      * constructor; [exact E|].
        eapply Forall_impl; [|exact Hy].
        unfold key_le. intros a Ha. lia.
Qed.

Lemma stable_sort_sorted (l : list A) :
  StronglySorted (key_le m) (stable_sort (key_ltb m) l).
Proof.
  induction l as [|x l IH]; simpl.
  - constructor.
  - apply insert_sorted, IH.
Qed.



(** Sorting a sorted list changes nothing. *)
Lemma stable_sort_sorted_id (l : list A) :
  StronglySorted (key_le m) l -> stable_sort (key_ltb m) l = l.
Proof.
  induction l as [|x l IH]; simpl; intros Hs.
  - reflexivity.
  - apply StronglySorted_inv in Hs. destruct Hs as [Hl Hx].
    rewrite (IH Hl). destruct l as [|y l]; simpl.
    + reflexivity.
    + apply Forall_inv in Hx. unfold key_le in Hx. unfold key_ltb.
      destruct (m y <? m x) eqn:E; [|reflexivity].
      apply Z.ltb_lt in E. lia.
Qed.

Lemma same_key_same_item (l : list A) (x y : A) :
  NoDup (map m l) -> In x l -> In y l -> m x = m y -> x = y.
Proof.
  induction l as [|a l IH]; simpl; intros Hnd Hx Hy E.
  - contradiction.
  - inversion Hnd as [|? ? Hnotin Hnd']; subst.
    destruct Hx as [->|Hx], Hy as [->|Hy].
    + reflexivity.
    + exfalso. apply Hnotin. rewrite E. apply in_map, Hy.
    + exfalso. apply Hnotin. rewrite <- E. apply in_map, Hx.
    + apply IH; assumption.
Qed.

(** Two sorted arrangements of items with pairwise distinct keys agree. *)
Lemma sorted_unique (l1 : list A) :
  forall l2,
    Permutation l1 l2 -> NoDup (map m l1) ->
    StronglySorted (key_le m) l1 -> StronglySorted (key_le m) l2 ->
    l1 = l2.
Proof.
  induction l1 as [|x l1 IH]; intros l2 Hp Hnd Hs1 Hs2.
  - apply Permutation_nil in Hp. subst. reflexivity.
  - destruct l2 as [|y l2].
    + apply Permutation_sym, Permutation_nil in Hp. discriminate.
    + assert (Hxy : x = y).
      { apply StronglySorted_inv in Hs1, Hs2.
        destruct Hs1 as [_ H1], Hs2 as [_ H2].
        assert (Hy : In y (x :: l1)).
        { apply (Permutation_in _ (Permutation_sym Hp)). left. reflexivity. }
        assert (Hx : In x (y :: l2)).
        { apply (Permutation_in _ Hp). left. reflexivity. }
        apply (same_key_same_item (x :: l1)); auto.
        - left. reflexivity.
        - rewrite Forall_forall in H1, H2. unfold key_le in H1, H2.
          destruct Hy as [->|Hy]; [reflexivity|].
          destruct Hx as [->|Hx]; [reflexivity|].
          specialize (H1 _ Hy). specialize (H2 _ Hx). lia. }
      subst y. f_equal.
      apply IH.
      * apply Permutation_cons_inv in Hp. exact Hp.
      * inversion Hnd; assumption.
      * apply StronglySorted_inv in Hs1. apply Hs1.
      * apply StronglySorted_inv in Hs2. apply Hs2.
Qed.

End SortFacts.

(** Sorting decorated items is decorating sorted items. *)
Lemma stable_sort_map {A B : Type} (f : A -> B)
      (ltA : A -> A -> bool) (ltB : B -> B -> bool) (l : list A) :
  (forall a b, ltB (f a) (f b) = ltA a b) ->
  stable_sort ltB (map f l) = map f (stable_sort ltA l).
Proof.
  intros Hlt.
  assert (Hins : forall x s, insert ltB (f x) (map f s) = map f (insert ltA x s)).
  { intros x s. induction s as [|y s IH]; simpl.
    - reflexivity.
    - rewrite Hlt. destruct (ltA y x); simpl.
      + rewrite IH. reflexivity.
      + reflexivity. }
  induction l as [|x l IH]; simpl.
  - reflexivity.
  - rewrite IH. apply Hins.
Qed.

(** ** The displayed order *)

Section Timestamps.
Context `{RT : PyRuntime}.

Lemma combine_keys (readings : list reading) :
  forall keys,
    mapM sort_key readings = Ok keys ->
    combine keys readings = map decorate readings.
Proof.
  induction readings as [|x l IH]; simpl; intros keys Hk.
  - inversion Hk. reflexivity.
  - unfold decorate at 1.
    destruct (sort_key x) as [d|e]; simpl in Hk; [|discriminate].
    destruct (mapM sort_key l) as [ks|e]; simpl in Hk; [|discriminate].
    inversion Hk; subst. simpl. rewrite (IH ks eq_refl). reflexivity.
Qed.

Lemma decorated_ltb_decorate (a b : reading) :
  decorated_ltb (decorate a) (decorate b) = key_ltb timestamp a b.
Proof.
  unfold decorated_ltb, decorate, key_ltb, timestamp. simpl.
  destruct (sort_key a), (sort_key b); reflexivity.
Qed.

(** When the sort goes through, it is the stable sort by [timestamp]. *)
Lemma sorted_by_timestamp_ok (readings : list reading) :
  timestamps_comparable readings ->
  sorted_by_timestamp readings
  = Ok (stable_sort (key_ltb timestamp) readings).
Proof.
  intros [keys [Hk Hc]]. unfold sorted_by_timestamp.
  rewrite Hk. simpl. rewrite Hc.
  rewrite (combine_keys readings keys Hk).
  rewrite (stable_sort_map decorate (key_ltb timestamp) decorated_ltb).
  - rewrite map_map. simpl. rewrite map_id. reflexivity.
  - apply decorated_ltb_decorate.
Qed.






End Timestamps.

(** ** The order of the records *)

Lemma bind_ok {A B : Type} (m : result A) (k : A -> result B) (b : B) :
  bind m k = Ok b -> exists a, m = Ok a /\ k a = Ok b.
Proof.
  destruct m as [a|e]; simpl; intros Hk; [|discriminate].
  exists a. split; [reflexivity|exact Hk].
Qed.

Lemma mapM_perm {A B : Type} (f : A -> result B) (l l' : list A) :
  Permutation l l' ->
  forall ys, mapM f l = Ok ys ->
             exists ys', mapM f l' = Ok ys' /\ Permutation ys ys'.
Proof.
  induction 1 as [|x l l' Hp IH|x y l|l l' l'' Hp1 IH1 Hp2 IH2];
    intros ys Hm.
  - exists ys. split; [exact Hm|apply Permutation_refl].
  - simpl in Hm. apply bind_ok in Hm. destruct Hm as [b [Hb Hm]].
    apply bind_ok in Hm. destruct Hm as [bs [Hbs Hm]].
    inversion Hm; subst. destruct (IH bs Hbs) as [bs' [Hbs' Hperm]].
    exists (b :: bs'). simpl. rewrite Hb, Hbs'. simpl.
    split; [reflexivity|apply perm_skip, Hperm].
  - simpl in Hm. apply bind_ok in Hm. destruct Hm as [b [Hb Hm]].
    apply bind_ok in Hm. destruct Hm as [bs [Hbs Hm]].
    inversion Hm; subst. clear Hm.
    apply bind_ok in Hbs. destruct Hbs as [c [Hc Hbs]].
    apply bind_ok in Hbs. destruct Hbs as [cs [Hcs Hbs]].
    inversion Hbs; subst. clear Hbs.
    exists (c :: b :: cs). simpl. rewrite Hc, Hb, Hcs. simpl.
    split; [reflexivity|apply perm_swap].
  - destruct (IH1 ys Hm) as [ys' [Hm' Hp']].
    destruct (IH2 ys' Hm') as [ys'' [Hm'' Hp'']].
    exists ys''. split; [exact Hm''|].
    apply Permutation_trans with ys'; assumption.
Qed.

Lemma perm_concat {A : Type} (l l' : list (list A)) :
  Permutation l l' -> Permutation (List.concat l) (List.concat l').
Proof.
  induction 1 as [|x l l' Hp IH|x y l|l l' l'' Hp1 IH1 Hp2 IH2]; simpl.
  - apply perm_nil.
  - apply Permutation_app_head, IH.
  - rewrite !app_assoc. apply Permutation_app_tail, Permutation_app_comm.
  - apply Permutation_trans with (List.concat l'); assumption.
Qed.

Lemma perm_filter {A : Type} (f : A -> bool) (l l' : list A) :
  Permutation l l' -> Permutation (filter f l) (filter f l').
Proof.
  induction 1 as [|x l l' Hp IH|x y l|l l' l'' Hp1 IH1 Hp2 IH2]; simpl.
  - apply perm_nil.
  - destruct (f x); [apply perm_skip, IH|exact IH].
  - destruct (f x), (f y);
      try apply Permutation_refl; apply perm_swap.
  - apply Permutation_trans with (filter f l'); assumption.
Qed.

Lemma perm_forallb {A : Type} (f : A -> bool) (l l' : list A) :
  Permutation l l' -> forallb f l = forallb f l'.
Proof.
  induction 1 as [|x l l' Hp IH|x y l|l l' l'' Hp1 IH1 Hp2 IH2]; simpl.
  - reflexivity.
  - rewrite IH. reflexivity.
  - destruct (f x), (f y); reflexivity.
  - rewrite IH1. exact IH2.
Qed.

Section Grouping.
Context `{RT : PyRuntime}.

Lemma add_reading_entry dt d rd :
  add_reading dt d rd = (e <- reading_entry dt rd ;; Ok (file_entry d e)).
Proof.
  unfold add_reading, reading_entry, dict_append.
  destruct (py_get rd "station" (PDict [])) as [st|]; simpl; [|reflexivity].
  destruct (town_of st) as [town|]; simpl; [|reflexivity].
  destruct (py_get rd "wbgt" PNone) as [w|]; simpl; [|reflexivity].
  destruct (py_get rd "heatStress" PNone) as [h|]; simpl; [|reflexivity].
  destruct (hash_key town); reflexivity.
Qed.

Lemma foldM_add_reading dt rds :
  forall d,
    foldM (add_reading dt) rds d
    = (es <- mapM (reading_entry dt) rds ;; Ok (fold_left file_entry es d)).
Proof.
  induction rds as [|rd rds IH]; intros d; simpl.
  - reflexivity.
  - rewrite add_reading_entry.
    destruct (reading_entry dt rd) as [e|]; simpl; [|reflexivity].
    rewrite IH.
    destruct (mapM (reading_entry dt) rds); reflexivity.
Qed.

Lemma add_record_entries d record :
  add_record d record
  = (es <- record_entries record ;; Ok (fold_left file_entry es d)).
Proof.
  unfold add_record, record_entries.
  destruct (py_get record "datetime" PNone) as [dt|]; simpl; [|reflexivity].
  destruct (py_get record "item" (PDict [])) as [item|]; simpl; [|reflexivity].
  destruct (py_get item "readings" (PList [])) as [rs|]; simpl; [|reflexivity].
  destruct (py_iter rs) as [rds|]; simpl; [|reflexivity].
  apply foldM_add_reading.
Qed.

Lemma foldM_add_record recs :
  forall d,
    foldM add_record recs d
    = (ess <- mapM record_entries recs ;;
       Ok (fold_left file_entry (List.concat ess) d)).
Proof.
  induction recs as [|r recs IH]; intros d; simpl.
  - reflexivity.
  - rewrite add_record_entries.
    destruct (record_entries r) as [es|]; simpl; [|reflexivity].
    rewrite IH.
    destruct (mapM record_entries recs) as [ess|]; simpl; [|reflexivity].
    rewrite fold_left_app. reflexivity.
Qed.

Lemma group_wbgt_by_station_payload (recs : list pyval) :
  ByStation.group_wbgt_by_station (payload recs) = foldM add_record recs [].
Proof. reflexivity. Qed.

End Grouping.

Section Permuting.
Context `{RT : PyRuntime}.

(** [==] on numbers is symmetric and transitive. *)
Hypothesis num_eqb_sym : forall a b : num, num_eqb a b = num_eqb b a.
Hypothesis num_eqb_trans :
  forall a b c : num, num_eqb a b = true -> num_eqb b c = true ->
                      num_eqb a c = true.

Lemma key_class_eqb_sym (a b : key_class) :
  key_class_eqb a b = key_class_eqb b a.
Proof.
  destruct a, b; simpl; try reflexivity.
  - apply num_eqb_sym.
  - apply String.eqb_sym.
Qed.

Lemma key_class_eqb_trans (a b c : key_class) :
  key_class_eqb a b = true -> key_class_eqb b c = true ->
  key_class_eqb a c = true.
Proof.
  destruct a, b, c; simpl; try discriminate; try reflexivity.
  - apply num_eqb_trans.
  - intros E1 E2. apply String.eqb_eq in E1, E2. subst. apply String.eqb_refl.
Qed.

Lemma key_match_sym (a b : pyval) : key_match a b = key_match b a.
Proof.
  unfold key_match. destruct (hash_key a), (hash_key b); try reflexivity.
  apply key_class_eqb_sym.
Qed.

Lemma key_match_trans (a b c : pyval) :
  key_match a b = true -> key_match b c = true -> key_match a c = true.
Proof.
  unfold key_match.
  destruct (hash_key a), (hash_key b), (hash_key c); try discriminate.
  apply key_class_eqb_trans.
Qed.

(** Filing an entry adds its tuple at the end of the group of every key
    that matches the entry's key, and changes no other group. *)
Lemma group_of_file_entry (k : pyval) (e : pyval * reading) (d : station_dict) :
  group_of k (file_entry d e)
  = group_of k d ++ (if key_match k (fst e) then [snd e] else []).
Proof.
  destruct e as [k' r]. unfold file_entry, group_of. simpl.
  induction d as [|[k0 rs] d IH]; simpl.
  - destruct (key_match k k'); reflexivity.
  - destruct (key_match k' k0) eqn:E0; simpl.
    + destruct (key_match k k0) eqn:Ek.
      * assert (Hk : key_match k k' = true).
        { apply key_match_trans with k0; [exact Ek|].
          rewrite key_match_sym. exact E0. }
        rewrite Hk. reflexivity.
      * destruct (key_match k k') eqn:Hk.
        -- rewrite (key_match_trans k k' k0 Hk E0) in Ek. discriminate.
        -- rewrite app_nil_r. reflexivity.
    + destruct (key_match k k0) eqn:Ek.
      * destruct (key_match k k') eqn:Hk.
        -- rewrite key_match_sym in Hk.
           rewrite (key_match_trans k' k k0 Hk Ek) in E0. discriminate.
        -- rewrite app_nil_r. reflexivity.
      * exact IH.
Qed.

Lemma group_of_fold (k : pyval) (es : list (pyval * reading)) :
  forall d,
    group_of k (fold_left file_entry es d)
    = group_of k d
        ++ map snd (filter (fun e => key_match k (fst e)) es).
Proof.
  induction es as [|e es IH]; intros d; simpl.
  - rewrite app_nil_r. reflexivity.
  - rewrite IH, group_of_file_entry.
    destruct (key_match k (fst e)); simpl.
    + rewrite <- app_assoc. reflexivity.
    + rewrite app_nil_r. reflexivity.
Qed.

Lemma file_entry_nonempty (e : pyval * reading) (d : station_dict) :
  groups_nonempty d -> groups_nonempty (file_entry d e).
Proof.
  destruct e as [k r]. unfold file_entry, groups_nonempty. simpl.
  induction d as [|[k0 rs] d IH]; simpl; intros Hd.
  - constructor; [discriminate|constructor].
  - inversion Hd as [|? ? Hrs Hd']; subst.
    destruct (key_match k k0); constructor; simpl; auto.
    destruct rs; discriminate.
Qed.

Lemma fold_nonempty (es : list (pyval * reading)) :
  forall d, groups_nonempty d -> groups_nonempty (fold_left file_entry es d).
Proof.
  induction es as [|e es IH]; intros d Hd; simpl.
  - exact Hd.
  - apply IH, file_entry_nonempty, Hd.
Qed.

Lemma dict_find_nonempty (k : pyval) (d : station_dict) (rs : list reading) :
  groups_nonempty d -> dict_find k d = Some rs -> rs <> [].
Proof.
  induction d as [|[k0 rs0] d IH]; simpl; intros Hd Hf.
  - discriminate.
  - inversion Hd as [|? ? Hrs Hd']; subst.
    destruct (key_match k k0).
    + inversion Hf; subst. exact Hrs.
    + apply IH; assumption.
Qed.

Lemma timestamps_comparable_perm (rs rs' : list reading) :
  Permutation rs rs' -> timestamps_comparable rs -> timestamps_comparable rs'.
Proof.
  intros Hp [keys [Hk Hc]].
  destruct (mapM_perm sort_key rs rs' Hp keys Hk) as [keys' [Hk' Hpk]].
  exists keys'. split; [exact Hk'|].
  unfold comparable in *.
  rewrite <- (perm_forallb aware keys keys' Hpk).
  rewrite <- (perm_forallb (fun d => negb (aware d)) keys keys' Hpk).
  exact Hc.
Qed.

(** Sorting two arrangements of one group whose timestamps are pairwise
    distinct gives one sequence. *)
Lemma sorted_by_timestamp_perm (rs rs' : list reading) :
  Permutation rs rs' ->
  timestamps_comparable rs ->
  NoDup (map timestamp rs) ->
  sorted_by_timestamp rs' = sorted_by_timestamp rs.
Proof.
  intros Hp Hc Hnd.
  rewrite (sorted_by_timestamp_ok rs Hc).
  rewrite (sorted_by_timestamp_ok rs' (timestamps_comparable_perm rs rs' Hp Hc)).
  f_equal. apply (sorted_unique timestamp).
  - apply Permutation_trans with rs'; [apply stable_sort_perm|].
    apply Permutation_trans with rs; [apply Permutation_sym, Hp|].
    apply Permutation_sym, stable_sort_perm.
  - apply (Permutation_NoDup (l := map timestamp rs)); [|exact Hnd].
    apply Permutation_map.
    apply Permutation_trans with rs'; [exact Hp|].
    apply Permutation_sym, stable_sort_perm.
  - apply stable_sort_sorted.
  - apply stable_sort_sorted.
Qed.

(** C3, as the code has it: when the records group without error and no
    station has two readings with the same parsed timestamp, every
    reordering of the record list groups without error too, into the same
    station keys, and each key has the same sorted sequence. *)
Theorem grouping_ignores_record_order_without_ties :
  forall (recs recs' : list pyval) (station_data : station_dict),
    Permutation recs recs' ->
    ByStation.group_wbgt_by_station (payload recs) = Ok station_data ->
    no_timestamp_ties station_data ->
    exists station_data',
      ByStation.group_wbgt_by_station (payload recs') = Ok station_data'
      /\ forall k, station_view station_data' k = station_view station_data k.
Proof.
  intros recs recs' sd Hp Hg Hties.
  rewrite group_wbgt_by_station_payload, foldM_add_record in Hg.
  apply bind_ok in Hg. destruct Hg as [ess [Hess Hsd]].
  assert (Hsd' : sd = fold_left file_entry (List.concat ess) [])
    by (inversion Hsd; reflexivity).
  clear Hsd.
  destruct (mapM_perm record_entries recs recs' Hp ess Hess)
    as [ess' [Hess' Hpe]].
  remember (fold_left file_entry (List.concat ess') []) as sd' eqn:Esd'.
  exists sd'.
  split.
  { rewrite group_wbgt_by_station_payload, foldM_add_record, Hess'.
    simpl. rewrite Esd'. reflexivity. }
  intros k.
  assert (Hgroups : Permutation (group_of k sd) (group_of k sd')).
  { rewrite Hsd', Esd', !group_of_fold. simpl.
    apply Permutation_map, perm_filter, perm_concat, Hpe. }
  assert (Hne : groups_nonempty sd).
  { rewrite Hsd'. apply fold_nonempty. constructor. }
  assert (Hne' : groups_nonempty sd').
  { rewrite Esd'. apply fold_nonempty. constructor. }
  clear Hsd' Esd'.
  unfold station_view. unfold group_of in Hgroups.
  destruct (dict_find k sd) as [rs|] eqn:Hf;
    destruct (dict_find k sd') as [rs'|] eqn:Hf'; simpl.
  - f_equal. destruct (Hties k rs Hf) as [Hc Hnd].
    apply sorted_by_timestamp_perm; assumption.
  - exfalso. apply (dict_find_nonempty k sd rs Hne Hf).
    apply Permutation_sym, Permutation_nil in Hgroups. exact Hgroups.
  - exfalso. apply (dict_find_nonempty k sd' rs' Hne' Hf').
    apply Permutation_nil in Hgroups. exact Hgroups.
  - reflexivity.
Qed.

End Permuting.

(** ** The date check *)

Section DateCheck.
Context `{RT : PyRuntime}.










End DateCheck.

(** * Further properties of the code *)

(** ** What a grouping holds *)

Section GroupingInvariants.
Context `{RT : PyRuntime}.

Lemma group_wbgt_by_station_entries (data : pyval) :
  ByStation.group_wbgt_by_station data
  = (es <- payload_entries data ;; Ok (fold_left file_entry es [])).
Proof.
  unfold ByStation.group_wbgt_by_station, payload_entries.
  destruct (records_of data) as [records|]; simpl; [|reflexivity].
  destruct (py_iter records) as [recs|]; simpl; [|reflexivity].
  rewrite foldM_add_record.
  destruct (mapM record_entries recs); reflexivity.
Qed.

Lemma all_groups_file_entry (e : pyval * reading) (d : station_dict) :
  Permutation (all_groups (file_entry d e)) (all_groups d ++ [snd e]).
Proof.
  destruct e as [k r]. unfold file_entry, all_groups. simpl.
  induction d as [|[k0 rs] d IH]; simpl.
  - apply Permutation_refl.
  - destruct (key_match k k0); simpl.
    + rewrite <- !app_assoc.
      apply Permutation_app_head, Permutation_app_comm.
    + rewrite <- app_assoc. apply Permutation_app_head, IH.
Qed.

Lemma all_groups_fold (es : list (pyval * reading)) :
  forall d,
    Permutation (all_groups (fold_left file_entry es d))
                (all_groups d ++ map snd es).
Proof.
  induction es as [|e es IH]; intros d; simpl.
  - rewrite app_nil_r. apply Permutation_refl.
  - apply Permutation_trans with (all_groups (file_entry d e) ++ map snd es).
    + apply IH.
    + apply Permutation_trans with ((all_groups d ++ [snd e]) ++ map snd es).
      * apply Permutation_app_tail, all_groups_file_entry.
      * rewrite <- app_assoc. apply Permutation_refl.
Qed.

(** X1: grouping neither drops nor duplicates a reading.  When
    [group_wbgt_by_station] returns, the tuples of all its groups together
    are, up to order, the tuples of all the readings of all the records of
    the payload; in particular there are as many of them. *)
Theorem grouping_keeps_every_reading :
  forall (data : pyval) (station_data : station_dict),
    ByStation.group_wbgt_by_station data = Ok station_data ->
    exists entries,
      payload_entries data = Ok entries
      /\ Permutation (all_groups station_data) (map snd entries)
      /\ List.length (all_groups station_data) = List.length entries.
Proof.
  intros data sd Hg. rewrite group_wbgt_by_station_entries in Hg.
  apply bind_ok in Hg. destruct Hg as [es [Hes Hsd]].
  inversion Hsd as [Hsd']. clear Hsd.
  exists es. split; [exact Hes|].
  assert (Hp : Permutation (all_groups (fold_left file_entry es []))
                           (map snd es)).
  { apply (all_groups_fold es []). }
  split; [exact Hp|].
  rewrite (Permutation_length Hp). apply length_map.
Qed.

Lemma keys_distinct_file_entry (e : pyval * reading) (d : station_dict) :
  keys_distinct d -> keys_distinct (file_entry d e).
Proof.
  destruct e as [k r]. unfold file_entry. simpl.
  induction d as [|[k0 rs] d IH]; simpl; intros Hd.
  - split; [constructor|exact I].
  - destruct Hd as [Hk0 Hd].
    destruct (key_match k k0) eqn:E; simpl.
    + split; assumption.
    + split; [|apply IH, Hd].
      clear IH Hd. induction d as [|[k1 rs1] d IHd]; simpl.
      * constructor; [exact E|constructor].
      * inversion Hk0 as [|? ? H1 Hrest]; subst.
        destruct (key_match k k1); constructor; auto.
Qed.

Lemma keys_distinct_fold (es : list (pyval * reading)) :
  forall d, keys_distinct d -> keys_distinct (fold_left file_entry es d).
Proof.
  induction es as [|e es IH]; intros d Hd; simpl.
  - exact Hd.
  - apply IH, keys_distinct_file_entry, Hd.
Qed.

Lemma grouping_groups_nonempty (data : pyval) (station_data : station_dict) :
  ByStation.group_wbgt_by_station data = Ok station_data ->
  groups_nonempty station_data.
Proof.
  intros Hg. rewrite group_wbgt_by_station_entries in Hg.
  apply bind_ok in Hg. destruct Hg as [es [_ Hsd]].
  inversion Hsd. apply fold_nonempty. constructor.
Qed.

(** X2: the dict [group_wbgt_by_station] returns is well formed: no group
    is empty, so every key it lists has at least one reading to show, and
    no key matches a key stored before it, so a station is listed once. *)
Theorem grouping_is_well_formed :
  forall (data : pyval) (station_data : station_dict),
    ByStation.group_wbgt_by_station data = Ok station_data ->
    groups_nonempty station_data
    /\ keys_distinct station_data
    /\ (forall k readings,
           dict_find k station_data = Some readings -> readings <> []).
Proof.
  intros data sd Hg.
  pose proof (grouping_groups_nonempty data sd Hg) as Hne.
  split; [exact Hne|]. split.
  - rewrite group_wbgt_by_station_entries in Hg.
    apply bind_ok in Hg. destruct Hg as [es [_ Hsd]].
    inversion Hsd. apply keys_distinct_fold. exact I.
  - intros k rs Hf. eapply dict_find_nonempty; eassumption.
Qed.

End GroupingInvariants.

Section GroupOrder.
Context `{RT : PyRuntime}.

Hypothesis num_eqb_sym : forall a b : num, num_eqb a b = num_eqb b a.
Hypothesis num_eqb_trans :
  forall a b c : num, num_eqb a b = true -> num_eqb b c = true ->
                      num_eqb a c = true.

(** X3: a group lists its readings in payload order.  With [==] on numbers
    symmetric and transitive, the group found under a key is exactly the
    tuples of the readings whose station key matches it, in the order the
    payload has them (records in order, readings in order within a
    record); a key that matches no reading is not in the dict. *)
Theorem group_is_in_payload_order :
  forall (data : pyval) (station_data : station_dict) (k : pyval),
    ByStation.group_wbgt_by_station data = Ok station_data ->
    exists entries,
      payload_entries data = Ok entries
      /\ group_of k station_data
         = map snd (filter (fun e => key_match k (fst e)) entries)
      /\ (dict_find k station_data = None <->
          filter (fun e => key_match k (fst e)) entries = []).
Proof.
  intros data sd k Hg. rewrite group_wbgt_by_station_entries in Hg.
  apply bind_ok in Hg. destruct Hg as [es [Hes Hsd]].
  inversion Hsd as [Hsd']. clear Hsd.
  exists es. split; [exact Hes|].
  assert (Hgo : group_of k (fold_left file_entry es [])
                = map snd (filter (fun e => key_match k (fst e)) es)).
  { rewrite (group_of_fold num_eqb_sym num_eqb_trans). reflexivity. }
  split; [exact Hgo|].
  assert (Hne : groups_nonempty (fold_left file_entry es [])).
  { apply fold_nonempty. constructor. }
  unfold group_of in Hgo.
  destruct (dict_find k (fold_left file_entry es [])) as [rs|] eqn:Hf.
  - split; [discriminate|].
    intros Hnil. rewrite Hnil in Hgo. simpl in Hgo.
    exfalso. eapply dict_find_nonempty; eassumption.
  - split; [|reflexivity]. intros _.
    destruct (filter (fun e => key_match k (fst e)) es); [reflexivity|].
    discriminate.
Qed.

End GroupOrder.

(** ** The keyboard *)

Lemma insert_perm_any {A : Type} (ltb : A -> A -> bool) (x : A) (l : list A) :
  Permutation (insert ltb x l) (x :: l).
Proof.
  induction l as [|y l IH]; simpl.
  - apply Permutation_refl.
  - destruct (ltb y x).
    + apply Permutation_trans with (y :: x :: l);
        [apply perm_skip, IH|apply perm_swap].
    + apply Permutation_refl.
Qed.

Lemma stable_sort_perm_any {A : Type} (ltb : A -> A -> bool) (l : list A) :
  Permutation (stable_sort ltb l) l.
Proof.
  induction l as [|x l IH]; simpl.
  - apply perm_nil.
  - apply Permutation_trans with (x :: stable_sort ltb l);
      [apply insert_perm_any|apply perm_skip, IH].
Qed.

Lemma ascii_compare_N (a b : ascii) :
  Ascii.compare a b = N.compare (N_of_ascii a) (N_of_ascii b).
Proof. reflexivity. Qed.

(** Strings: [c >= b] and [b >= a] give [c >= a]. *)
Lemma string_not_lt_trans (c : string) :
  forall b a,
    String.compare c b <> Lt -> String.compare b a <> Lt ->
    String.compare c a <> Lt.
Proof.
  induction c as [|x c IH]; intros [|y b] [|z a]; simpl;
    try congruence.
  rewrite !ascii_compare_N.
  destruct (N.compare_spec (N_of_ascii x) (N_of_ascii y)) as [Exy|Exy|Exy];
    destruct (N.compare_spec (N_of_ascii y) (N_of_ascii z)) as [Eyz|Eyz|Eyz];
    destruct (N.compare_spec (N_of_ascii x) (N_of_ascii z)) as [Exz|Exz|Exz];
    intros H1 H2; try congruence; try lia.
  apply IH with b; assumption.
Qed.

Lemma string_ltb_asym (a b : string) :
  String.ltb a b = true -> String.ltb b a = false.
Proof.
  unfold String.ltb. rewrite (String.compare_antisym b a).
  destruct (String.compare a b); simpl; congruence.
Qed.

Lemma string_not_ltb_trans (a b c : string) :
  String.ltb b a = false -> String.ltb c b = false -> String.ltb c a = false.
Proof.
  unfold String.ltb. intros H1 H2.
  assert (Hcb : String.compare c b <> Lt)
    by (destruct (String.compare c b); congruence).
  assert (Hba : String.compare b a <> Lt)
    by (destruct (String.compare b a); congruence).
  pose proof (string_not_lt_trans c b a Hcb Hba) as H.
  destruct (String.compare c a); congruence.
Qed.

Section Keyboard.
Context `{RT : PyRuntime}.

Lemma sorted_keys_spec (ks ss : list pyval) :
  sorted_keys ks = Ok ss -> ss = stable_sort py_ltb ks.
Proof.
  unfold sorted_keys.
  destruct ((List.length ks <=? 1)%nat || forallb is_numlike ks
            || forallb is_str ks); intros E; inversion E; reflexivity.
Qed.

Lemma sorted_keys_perm (ks ss : list pyval) :
  sorted_keys ks = Ok ss -> Permutation ss ks.
Proof.
  intros E. rewrite (sorted_keys_spec ks ss E). apply stable_sort_perm_any.
Qed.

Lemma not_after_trans_str (a b c : pyval) :
  is_str a = true -> is_str b = true -> is_str c = true ->
  not_after a b -> not_after b c -> not_after a c.
Proof.
  destruct a, b, c; simpl; try discriminate. intros _ _ _.
  unfold not_after. simpl. apply string_not_ltb_trans.
Qed.

Lemma insert_sorted_str (x : pyval) (l : list pyval) :
  is_str x = true -> Forall (fun k => is_str k = true) l ->
  StronglySorted not_after l ->
  StronglySorted not_after (insert py_ltb x l).
Proof.
  intros Hx. induction l as [|y l IH]; simpl; intros Hl Hs.
  - constructor; constructor.
  - inversion Hl as [|? ? Hy Hl']; subst.
    apply StronglySorted_inv in Hs. destruct Hs as [Hs Hyl].
    destruct (py_ltb y x) eqn:E.
    + constructor; [apply IH; assumption|].
      apply (Permutation_Forall (Permutation_sym (insert_perm_any py_ltb x l))).
      constructor; [|exact Hyl].
      unfold not_after. destruct x, y; simpl in *; try discriminate.
      apply string_ltb_asym, E.
    + constructor; [constructor; assumption|].
      constructor; [exact E|].
      rewrite Forall_forall in Hyl, Hl'. apply Forall_forall. intros z Hz.
      apply (not_after_trans_str x y z); auto.
Qed.

Lemma stable_sort_sorted_str (l : list pyval) :
  Forall (fun k => is_str k = true) l ->
  StronglySorted not_after (stable_sort py_ltb l).
Proof.
  induction l as [|x l IH]; simpl; intros Hl.
  - constructor.
  - inversion Hl as [|? ? Hx Hl']; subst.
    apply insert_sorted_str; [exact Hx| |apply IH, Hl'].
    apply (Permutation_Forall (Permutation_sym (stable_sort_perm_any py_ltb l))).
    exact Hl'.
Qed.

(** What stands behind a keyboard that was sent. *)
Lemma handle_date_keyboard (fetch_wbgt : string -> result pyval)
      (text : string) (ud : user_data) (title : string) (buttons : list pyval) :
  In (ReplyKeyboard title buttons)
     (sent (ByStation.handle_date fetch_wbgt text ud)) ->
  exists body station_data,
    fetch_wbgt (strip text) = Ok body
    /\ ByStation.group_wbgt_by_station body = Ok station_data
    /\ stored (ByStation.handle_date fetch_wbgt text ud) = Some station_data
    /\ sorted_keys (dict_keys station_data) = Ok buttons
    /\ station_data <> [].
Proof.
  unfold ByStation.handle_date.
  destruct (check_date (strip text)) as [[]|e] eqn:Hc.
  - destruct (fetch_wbgt (strip text)) as [body|e] eqn:Hf; cbn [bind].
    + destruct (ByStation.group_wbgt_by_station body) as [[|kv sd]|e] eqn:Hg.
      * simpl. intros [E|[E|[]]]; discriminate.
      * destruct (sorted_keys (dict_keys (kv :: sd))) as [ss|e] eqn:Hs.
        -- simpl. intros [E|[E|[]]]; [discriminate|]. inversion E; subst.
           exists body, (kv :: sd). repeat split; auto. discriminate.
        -- simpl. intros [E|[E|[]]]; discriminate.
      * simpl. intros [E|[E|[]]]; discriminate.
    + simpl. intros [E|[E|[]]]; discriminate.
  - destruct e; simpl; intros Hin; try contradiction.
    destruct Hin as [E|[]]. discriminate.
Qed.

(** X4: the keyboard lists the stations of the stored result.  Whenever
    [handle_date] sends a keyboard, the grouping it fetched is what it
    stored; the buttons are the keys of that grouping, each once and at
    least one; and when all keys are strings, the buttons are in ascending
    order: no button is followed by a smaller one. *)
Theorem keyboard_lists_the_stored_stations :
  forall (fetch_wbgt : string -> result pyval) (text : string)
         (ud : user_data) (title : string) (buttons : list pyval),
    In (ReplyKeyboard title buttons)
       (sent (ByStation.handle_date fetch_wbgt text ud)) ->
    exists body station_data,
      fetch_wbgt (strip text) = Ok body
      /\ ByStation.group_wbgt_by_station body = Ok station_data
      /\ stored (ByStation.handle_date fetch_wbgt text ud) = Some station_data
      /\ Permutation buttons (dict_keys station_data)
      /\ List.length buttons = List.length station_data
      /\ (1 <= List.length buttons)%nat
      /\ (Forall (fun k => is_str k = true) (dict_keys station_data) ->
          StronglySorted not_after buttons).
Proof.
  intros f text ud title buttons Hkb.
  destruct (handle_date_keyboard f text ud title buttons Hkb)
    as [body [sd [Hf [Hg [Hst [Hs Hne]]]]]].
  exists body, sd.
  pose proof (sorted_keys_perm _ _ Hs) as Hp.
  assert (Hlen : List.length buttons = List.length sd).
  { rewrite (Permutation_length Hp). unfold dict_keys. apply length_map. }
  repeat split; auto.
  - rewrite Hlen. destruct sd as [|kv sd]; simpl; [contradiction|lia].
  - intros Hstr. rewrite (sorted_keys_spec _ _ Hs).
    apply stable_sort_sorted_str, Hstr.
Qed.

Lemma dict_find_mem (k : pyval) (d : station_dict) :
  dict_mem k d = true -> exists rs, dict_find k d = Some rs.
Proof.
  unfold dict_mem. induction d as [|[k0 rs0] d IH]; simpl.
  - discriminate.
  - destruct (key_match k k0); simpl.
    + intros _. exists rs0. reflexivity.
    + exact IH.
Qed.

(** X5: a button that was offered is never stale.  Pressing a string
    button of the keyboard [handle_date] has just sent finds, in the
    grouping of the fetched body that was stored, the group of that very
    station, which holds at least one reading; the reply is the station
    block of that group, or, when a timestamp of the group cannot be
    sorted, the exception of the sort escapes; it is never the "not found"
    message, and the session stays. *)
Theorem offered_button_resolves :
  forall (fetch_wbgt : string -> result pyval) (text : string)
         (ud : user_data) (title : string) (buttons : list pyval)
         (station : string),
    In (ReplyKeyboard title buttons)
       (sent (ByStation.handle_date fetch_wbgt text ud)) ->
    In (PStr station) buttons ->
    exists body station_data readings,
      fetch_wbgt (strip text) = Ok body
      /\ ByStation.group_wbgt_by_station body = Ok station_data
      /\ stored (ByStation.handle_date fetch_wbgt text ud) = Some station_data
      /\ dict_find (PStr station) station_data = Some readings
      /\ readings <> []
      /\ ByStation.button_handler station (Some station_data)
         = match ByStation.format_station_data (PStr station) readings with
           | Ok block =>
               mkOutcome [AnswerCallback; ReplyText block]
                 (Some station_data) None
           | Raise e =>
               mkOutcome [AnswerCallback] (Some station_data) (Some e)
           end.
Proof.
  intros f text ud title buttons station Hkb Hin.
  destruct (handle_date_keyboard f text ud title buttons Hkb)
    as [body [sd [Hf [Hg [Hst [Hs _]]]]]].
  pose proof (sorted_keys_perm _ _ Hs) as Hp.
  assert (Hmem : dict_mem (PStr station) sd = true).
  { apply dict_mem_str. apply (Permutation_in _ Hp Hin). }
  destruct (dict_find_mem _ _ Hmem) as [rs Hrs].
  exists body, sd, rs.
  split; [exact Hf|]. split; [exact Hg|]. split; [exact Hst|].
  split; [exact Hrs|]. split.
  - apply (dict_find_nonempty (PStr station) sd rs); [|exact Hrs].
    apply (grouping_groups_nonempty body sd Hg).
  - unfold ByStation.button_handler. rewrite Hmem.
    unfold dict_getitem. rewrite Hrs. simpl.
    destruct (ByStation.format_station_data (PStr station) rs); reflexivity.
Qed.

End Keyboard.

(** ** What the handlers do to the conversation *)

Section Handlers.
Context `{RT : PyRuntime}.


Lemma button_handler_stored (station : string) (ud : user_data) :
  stored (ByStation.button_handler station ud) = ud.
Proof.
  unfold ByStation.button_handler.
  destruct (dict_mem (PStr station) match ud with Some d => d | None => [] end);
    [|reflexivity].
  destruct (readings <- dict_getitem (PStr station)
                          match ud with Some d => d | None => [] end ;;
            ByStation.format_station_data (PStr station) readings);
    reflexivity.
Qed.

(** X7: choices do not interfere.  [button_handler] never fetches and
    leaves the session exactly as it found it, whether it answers, reports
    "not found" or raises; so a choice made after any sequence of other
    choices is answered as if it were made first. *)
Theorem choices_do_not_interfere :
  forall (earlier : list string) (station : string) (ud : user_data),
    let ud' :=
      fold_left (fun u s => stored (ByStation.button_handler s u)) earlier ud in
    ud' = ud
    /\ ByStation.button_handler station ud' = ByStation.button_handler station ud
    /\ existsb is_fetch (sent (ByStation.button_handler station ud)) = false.
Proof.
  intros earlier station ud ud'.
  assert (Hud : ud' = ud).
  { unfold ud'. induction earlier as [|s earlier IH]; simpl.
    - reflexivity.
    - rewrite button_handler_stored. exact IH. }
  split; [exact Hud|]. split; [rewrite Hud; reflexivity|].
  unfold ByStation.button_handler.
  destruct (dict_mem (PStr station) match ud with Some d => d | None => [] end);
    [|reflexivity].
  destruct (readings <- dict_getitem (PStr station)
                          match ud with Some d => d | None => [] end ;;
            ByStation.format_station_data (PStr station) readings);
    reflexivity.
Qed.

End Handlers.

(** ** The all-stations formatter against the station bot *)

Lemma mapM_length {A B : Type} (f : A -> result B) (l : list A) :
  forall ys, mapM f l = Ok ys -> List.length ys = List.length l.
Proof.
  induction l as [|x l IH]; simpl; intros ys Hm.
  - inversion Hm. reflexivity.
  - apply bind_ok in Hm. destruct Hm as [y [_ Hm]].
    apply bind_ok in Hm. destruct Hm as [ys' [Hys' Hm]].
    inversion Hm; subst. simpl. rewrite (IH ys' Hys'). reflexivity.
Qed.

Section SplitAgainstByStation.
Context `{RT : PyRuntime}.

(** X8: the all-stations formatter shows what the station bot would show.
    On a payload whose record list is not empty,
    [format_wbgt_by_station_split] returns, or raises, exactly what comes
    from grouping with [group_wbgt_by_station], ordering the keys as the
    keyboard does, and formatting each key's group with
    [format_station_data]. *)
Theorem split_is_grouping_then_formatting :
  forall (data records : pyval),
    records_of data = Ok records ->
    py_truthy records = true ->
    Split.format_wbgt_by_station_split data
    = (station_data <- ByStation.group_wbgt_by_station data ;;
       stations <- sorted_keys (dict_keys station_data) ;;
       mapM (fun station =>
               readings <- dict_getitem station station_data ;;
               ByStation.format_station_data station readings)
            stations).
Proof.
  intros data records Hr Ht.
  unfold Split.format_wbgt_by_station_split, ByStation.group_wbgt_by_station.
  rewrite Hr. cbn [bind]. rewrite Ht. cbn [negb].
  destruct (py_iter records) as [recs|]; cbn [bind]; [|reflexivity].
  destruct (foldM add_record recs []) as [sd|]; cbn [bind]; [|reflexivity].
  reflexivity.
Qed.

(** X9: one block per station, and when the formatter is silent.  When
    [format_wbgt_by_station_split] returns, either the record list was
    empty (or otherwise false) and the result is the single block
    "No records found.", or the payload grouped and there is one block per
    station; so the result is the empty list exactly when the record list
    is not empty and no reading was grouped. *)
Theorem split_gives_one_block_per_station :
  forall (data : pyval) (messages : list string),
    Split.format_wbgt_by_station_split data = Ok messages ->
    exists records,
      records_of data = Ok records
      /\ (if py_truthy records
          then exists station_data,
                 ByStation.group_wbgt_by_station data = Ok station_data
                 /\ List.length messages = List.length station_data
                 /\ (messages = [] <-> station_data = [])
          else messages = [no_records_message]).
Proof.
  intros data msgs Hf.
  unfold Split.format_wbgt_by_station_split in Hf.
  unfold ByStation.group_wbgt_by_station.
  destruct (records_of data) as [records|] eqn:Hr; [|discriminate].
  cbn [bind] in *. exists records. split; [reflexivity|].
  destruct (py_truthy records); cbn [negb] in Hf.
  - destruct (py_iter records) as [recs|]; [|discriminate]. cbn [bind] in *.
    destruct (foldM add_record recs []) as [sd|]; [|discriminate].
    cbn [bind] in Hf. exists sd. split; [reflexivity|].
    apply bind_ok in Hf. destruct Hf as [ss [Hs Hm]].
    assert (Hlen : List.length msgs = List.length sd).
    { rewrite (mapM_length _ _ _ Hm).
      rewrite (Permutation_length (sorted_keys_perm _ _ Hs)).
      unfold dict_keys. apply length_map. }
    split; [exact Hlen|].
    split; intros E; subst; simpl in Hlen.
    + destruct sd; [reflexivity|discriminate].
    + destruct msgs; [reflexivity|discriminate].
  - inversion Hf. reflexivity.
Qed.

End SplitAgainstByStation.

(** ** Sorting what is sorted *)

Section SortTwice.
Context `{RT : PyRuntime}.

Lemma sorted_by_timestamp_inv (readings sorted : list reading) :
  sorted_by_timestamp readings = Ok sorted ->
  timestamps_comparable readings.
Proof.
  unfold sorted_by_timestamp. intros Hs.
  apply bind_ok in Hs. destruct Hs as [keys [Hk Hs]].
  exists keys. split; [exact Hk|].
  destruct (comparable keys); [reflexivity|discriminate].
Qed.

(** X10: the station formatter does not care whether its input is already
    sorted.  Whenever the sort of a group goes through, sorting its result
    again changes nothing, and [format_station_data] gives the same block
    for the group and for the sorted group. *)
Theorem formatting_sorted_input_changes_nothing :
  forall (station : pyval) (readings readings_sorted : list reading),
    sorted_by_timestamp readings = Ok readings_sorted ->
    sorted_by_timestamp readings_sorted = Ok readings_sorted
    /\ ByStation.format_station_data station readings_sorted
       = ByStation.format_station_data station readings.
Proof.
  intros station rs rs' Hs.
  pose proof (sorted_by_timestamp_inv rs rs' Hs) as Hc.
  rewrite (sorted_by_timestamp_ok rs Hc) in Hs.
  inversion Hs as [Hrs']. clear Hs.
  assert (Hc' : timestamps_comparable (stable_sort (key_ltb timestamp) rs)).
  { apply (timestamps_comparable_perm rs); [|exact Hc].
    apply Permutation_sym, stable_sort_perm. }
  assert (Hagain : sorted_by_timestamp (stable_sort (key_ltb timestamp) rs)
                   = Ok (stable_sort (key_ltb timestamp) rs)).
  { rewrite (sorted_by_timestamp_ok _ Hc'). f_equal.
    apply stable_sort_sorted_id, stable_sort_sorted. }
  split; [exact Hagain|].
  unfold ByStation.format_station_data.
  rewrite Hagain, (sorted_by_timestamp_ok rs Hc). reflexivity.
Qed.

End SortTwice.

(** ** The upstream request *)

Section Upstream.
Context `{RT : PyRuntime}.

(** X11: the two versions of [fetch_wbgt].  Given the response of the
    server, both return what [response.json()] gives on status 200 and
    both raise on the statuses 400 to 599; on any other status
    [wbgt_bot.py] raises while the later copies go on to
    [response.json()].  So a body the first version returns is returned by
    the copies too.  With [fetch_wbgt] of its own file, each bot turns a
    status from 400 to 599 into the one error reply, the session
    untouched. *)
Theorem fetch_versions_differ_off_200 :
  forall (get : string -> result response) (date_input : string) (r : response),
    get date_input = Ok r ->
    (status_code r = 200 ->
     WbgtBot.fetch_wbgt get date_input = json r
     /\ Copies.fetch_wbgt get date_input = json r)
    /\ (400 <= status_code r < 600 ->
        WbgtBot.fetch_wbgt get date_input = Raise RequestError
        /\ Copies.fetch_wbgt get date_input = Raise RequestError
        /\ (forall text ud,
               strip text = date_input -> check_date date_input = Ok tt ->
               ByStation.handle_date (Copies.fetch_wbgt get) text ud
               = mkOutcome [Fetch date_input; error_reply RequestError] ud None
               /\ Split.handle_date (WbgtBot.fetch_wbgt get) text
                  = ([Fetch date_input; error_reply RequestError], None)))
    /\ (status_code r <> 200 -> ~ 400 <= status_code r < 600 ->
        WbgtBot.fetch_wbgt get date_input = Raise RequestError
        /\ Copies.fetch_wbgt get date_input = json r)
    /\ (forall body,
           WbgtBot.fetch_wbgt get date_input = Ok body ->
           Copies.fetch_wbgt get date_input = Ok body).
Proof.
  intros get d r Hget.
  unfold WbgtBot.fetch_wbgt, Copies.fetch_wbgt. rewrite Hget. cbn [bind].
  split; [|split; [|split]].
  - intros H200. rewrite H200. split; reflexivity.
  - intros Hrange.
    assert (E1 : (status_code r =? 200) = false) by (apply Z.eqb_neq; lia).
    assert (E2 : (400 <=? status_code r) && (status_code r <? 600) = true).
    { apply andb_true_iff. split; [apply Z.leb_le|apply Z.ltb_lt]; lia. }
    rewrite E1, E2. cbn [negb]. split; [reflexivity|]. split; [reflexivity|].
    intros text ud Hstrip Hc.
    unfold ByStation.handle_date, Split.handle_date,
      WbgtBot.fetch_wbgt, Copies.fetch_wbgt.
    rewrite Hstrip, Hc, Hget. cbn [bind]. rewrite E1, E2. split; reflexivity.
  - intros Hne Hout.
    assert (E1 : (status_code r =? 200) = false) by (apply Z.eqb_neq; exact Hne).
    assert (E2 : (400 <=? status_code r) && (status_code r <? 600) = false).
    { destruct ((400 <=? status_code r) && (status_code r <? 600)) eqn:E;
        [|reflexivity].
      apply andb_true_iff in E. destruct E as [Ea Eb].
      apply Z.leb_le in Ea. apply Z.ltb_lt in Eb. exfalso. apply Hout. lia. }
    rewrite E1, E2. split; reflexivity.
  - intros body.
    destruct (status_code r =? 200) eqn:E1; cbn [negb]; [|discriminate].
    apply Z.eqb_eq in E1. rewrite E1. simpl. trivial.
Qed.

End Upstream.

(** ** Surrounding white space *)

Lemma lstrip_starts_clean (s : string) : starts_clean (lstrip s).
Proof.
  induction s as [|a s IH]; simpl.
  - exact I.
  - destruct (is_space a) eqn:E; [exact IH|]. simpl. exact E.
Qed.

Lemma lstrip_clean_id (u : string) : starts_clean u -> lstrip u = u.
Proof.
  destruct u as [|a u]; simpl; [reflexivity|]. intros E. rewrite E. reflexivity.
Qed.

Lemma rstrip_starts_clean (u : string) :
  starts_clean u -> starts_clean (rstrip u).
Proof.
  destruct u as [|a u]; simpl; [trivial|]. intros E.
  destruct (rstrip u); [rewrite E|]; simpl; exact E.
Qed.

Lemma rstrip_idempotent (u : string) : rstrip (rstrip u) = rstrip u.
Proof.
  induction u as [|a u IH]; simpl; [reflexivity|].
  destruct (rstrip u) as [|b kept] eqn:Er.
  - destruct (is_space a) eqn:Ea; simpl; [reflexivity|].
    rewrite Ea. reflexivity.
  - change (rstrip (String a (String b kept))) with
      (match rstrip (String b kept) with
       | EmptyString =>
           if is_space a then EmptyString else String a EmptyString
       | String c k => String a (String c k)
       end).
    rewrite IH. reflexivity.
Qed.

Lemma strip_idempotent (s : string) : strip (strip s) = strip s.
Proof.
  unfold strip.
  rewrite (lstrip_clean_id (rstrip (lstrip s))).
  - apply rstrip_idempotent.
  - apply rstrip_starts_clean, lstrip_starts_clean.
Qed.

Section WhiteSpace.
Context `{RT : PyRuntime}.

(** X12: white space around the text never matters.  Stripping is
    idempotent and leaves no white space at the start of the date, so each
    [handle_date] treats a text and its stripped form alike: same fetch,
    same messages, same session. *)
Theorem handle_date_ignores_surrounding_space :
  forall (fetch_wbgt : string -> result pyval) (text : string) (ud : user_data),
    strip (strip text) = strip text
    /\ starts_clean (strip text)
    /\ ByStation.handle_date fetch_wbgt (strip text) ud
       = ByStation.handle_date fetch_wbgt text ud
    /\ Split.handle_date fetch_wbgt (strip text)
       = Split.handle_date fetch_wbgt text.
Proof.
  intros f text ud.
  split; [apply strip_idempotent|]. split.
  - unfold strip. apply rstrip_starts_clean, lstrip_starts_clean.
  - unfold ByStation.handle_date, Split.handle_date.
    rewrite strip_idempotent. split; reflexivity.
Qed.

End WhiteSpace.

(** ** Dates without a "T" *)

Lemma in_range_digit (lo hi : nat) (c : ascii) :
  in_range lo hi c = true ->
  Z.of_nat lo - 48 <= digit c <= Z.of_nat hi - 48.
Proof.
  unfold in_range, digit. intros E.
  apply andb_true_iff in E. destruct E as [E1 E2].
  apply Nat.leb_le in E1. apply Nat.leb_le in E2. lia.
Qed.

Ltac one_alt Hin E :=
  match type of Hin with
  | In _ (if ?c then _ else _) =>
      destruct c eqn:E; cbn [In] in Hin; [|contradiction];
      destruct Hin as [Hin|[]]; apply pair_equal_spec in Hin;
      destruct Hin as [? ?]; subst
  end.

Lemma month_alts_spec (s : string) (m : Z) (rest : string) :
  In (m, rest) (month_alts s) ->
  1 <= m <= 12
  /\ (String.length s = String.length rest + 1
      \/ String.length s = String.length rest + 2)%nat.
Proof.
  unfold month_alts. destruct s as [|a [|b s]]; cbv beta iota; intros Hin.
  - destruct Hin.
  - one_alt Hin Ea.
    apply in_range_digit in Ea. split; [lia|left; reflexivity].
  - apply in_app_or in Hin. destruct Hin as [Hin|Hin];
      [|apply in_app_or in Hin; destruct Hin as [Hin|Hin]].
    + one_alt Hin E. apply andb_true_iff in E. destruct E as [_ Eb].
      apply in_range_digit in Eb. split; [lia|right; simpl; lia].
    + one_alt Hin E. apply andb_true_iff in E. destruct E as [_ Eb].
      apply in_range_digit in Eb. split; [lia|right; simpl; lia].
    + one_alt Hin Ea.
      apply in_range_digit in Ea. split; [lia|left; simpl; lia].
Qed.

Lemma day_alts_spec (s : string) (d : Z) (rest : string) :
  In (d, rest) (day_alts s) ->
  1 <= d <= 31
  /\ (String.length s = String.length rest + 1
      \/ String.length s = String.length rest + 2)%nat.
Proof.
  unfold day_alts. destruct s as [|a [|b s]]; cbv beta iota; intros Hin.
  - destruct Hin.
  - one_alt Hin Ea.
    apply in_range_digit in Ea. split; [lia|left; reflexivity].
  - apply in_app_or in Hin. destruct Hin as [Hin|Hin];
      [|apply in_app_or in Hin; destruct Hin as [Hin|Hin];
        [|apply in_app_or in Hin; destruct Hin as [Hin|Hin];
          [|apply in_app_or in Hin; destruct Hin as [Hin|Hin]]]].
    + one_alt Hin E. apply andb_true_iff in E. destruct E as [_ Eb].
      apply in_range_digit in Eb. split; [lia|right; simpl; lia].
    + one_alt Hin E. apply andb_true_iff in E. destruct E as [Ea Eb].
      apply in_range_digit in Ea. apply in_range_digit in Eb.
      split; [lia|right; simpl; lia].
    + one_alt Hin E. apply andb_true_iff in E. destruct E as [_ Eb].
      apply in_range_digit in Eb. split; [lia|right; simpl; lia].
    + one_alt Hin Ea.
      apply in_range_digit in Ea. split; [lia|left; simpl; lia].
    + one_alt Hin E. apply andb_true_iff in E. destruct E as [_ Eb].
      apply in_range_digit in Eb. split; [lia|right; simpl; lia].
Qed.

Lemma match_month_day_spec (alts : list (Z * string)) (m d : Z) (unread : string) :
  match_month_day alts = Some (m, d, unread) ->
  exists after,
    In (m, String "-" after) alts /\ In (d, unread) (day_alts after).
Proof.
  induction alts as [|[m0 rest] alts IH]; simpl; [discriminate|].
  intros Hm.
  assert (Hlater : match_month_day alts = Some (m, d, unread) ->
                   exists after,
                     ((m0, rest) = (m, String "-" after)
                      \/ In (m, String "-" after) alts)
                     /\ In (d, unread) (day_alts after)).
  { intros H'. destruct (IH H') as [after [Hi Hd]].
    exists after. split; [right; exact Hi|exact Hd]. }
  destruct rest as [|c after]; [exact (Hlater Hm)|].
  destruct (Ascii.eqb c "-") eqn:Ec.
  - apply Ascii.eqb_eq in Ec. subst c.
    destruct (day_alts after) as [|[d0 u0] more] eqn:Hd; [exact (Hlater Hm)|].
    inversion Hm; subst. exists after. split; [left; reflexivity|].
    rewrite Hd. left. reflexivity.
  - assert (Hm' : match_month_day alts = Some (m, d, unread)).
    { revert Hm. destruct c as [[] [] [] [] [] [] [] []]; try (intros E; exact E);
        simpl in Ec; discriminate. }
    exact (Hlater Hm').
Qed.

Section ShortDates.
Context `{RT : PyRuntime}.

(** X13: a text accepted without "T" is a short, real date.  If the
    stripped text has no "T" and passes the date check, it is 8 to 10
    characters long and [strptime] read from it a year from 1 to 9999, a
    month from 1 to 12 and a day that this month of this year has.  So a
    date followed by a time is refused unless it has the upper-case "T":
    a lower-case "t" or a space as separator never passes. *)
Theorem date_without_T_is_short_and_real :
  forall (text : string),
    contains_char "T" (strip text) = false ->
    check_date (strip text) = Ok tt ->
    exists y m d,
      strptime_Ymd (strip text) = Ok (y, m, d)
      /\ valid_date y m d = true
      /\ 1 <= m <= 12 /\ 1 <= d <= 31
      /\ (8 <= String.length (strip text) <= 10)%nat.
Proof.
  intros text. generalize (strip text). clear text. intros s Ht Hc.
  unfold check_date in Hc. rewrite Ht in Hc.
  destruct (strptime_Ymd s) as [[[y m] d]|e] eqn:Hs; [|discriminate].
  exists y, m, d. split; [reflexivity|].
  unfold strptime_Ymd in Hs.
  destruct (match_Ymd s) as [[[[y' m'] d'] [|c unread]]|] eqn:Hm;
    try discriminate.
  destruct (valid_date y' m' d') eqn:Hv; [|discriminate].
  inversion Hs; subst. split; [exact Hv|].
  unfold match_Ymd in Hm.
  destruct s as [|y1 [|y2 [|y3 [|y4 [|dash after]]]]]; try discriminate.
  destruct (Ascii.eqb dash "-") eqn:Edash.
  - apply Ascii.eqb_eq in Edash. subst dash.
    destruct (is_digit y1 && is_digit y2 && is_digit y3 && is_digit y4);
      [|discriminate].
    destruct (match_month_day (month_alts after)) as [[[m0 d0] u0]|] eqn:Hmd;
      [|discriminate].
    inversion Hm; subst.
    destruct (match_month_day_spec _ _ _ _ Hmd) as [after' [Hin Hd]].
    destruct (month_alts_spec _ _ _ Hin) as [Hmr Hml].
    destruct (day_alts_spec _ _ _ Hd) as [Hdr Hdl].
    split; [exact Hmr|]. split; [exact Hdr|].
    simpl in *. lia.
  - exfalso. revert Hm.
    destruct dash as [[] [] [] [] [] [] [] []]; try discriminate;
      simpl in Edash; discriminate.
Qed.

End ShortDates.

(** * The properties on concrete inputs *)

#[local] Existing Instance int_num.
#[local] Existing Instance int_runtime.

(** C1, witness: a station named "Changi" with no townCenter. *)
Lemma station_key_is_first_present_key_witness :
  add_reading (PStr "2024-06-01T08:00:00Z") []
    (station_reading (named "Changi") (PInt 28) (PStr "Moderate"))
  = Ok [(PStr "Changi", [(PStr "2024-06-01T08:00:00Z", PInt 28, PStr "Moderate")])].
Proof.
  exact (station_key_is_first_present_key
           (PStr "2024-06-01T08:00:00Z") []
           [("station", named "Changi"); ("wbgt", PInt 28);
            ("heatStress", PStr "Moderate")]
           [("name", PStr "Changi")] eq_refl).
Defined.

(** C1, as the specification words it, fails: with townCenter present and
    null and name "Changi", "first non-null value" is "Changi", while the
    code resolves the key to None and files the reading there. *)
Lemma null_town_center_is_not_skipped :
  first_non_null station_chain null_town_fields
  = Some (PStr "Changi")
  /\ town_of (PDict null_town_fields) = Ok PNone
  /\ ByStation.group_wbgt_by_station
       (payload [record "2024-06-01T08:00:00Z"
                   [station_reading (PDict null_town_fields) (PInt 28)
                                    (PStr "Moderate")]])
     = Ok [(PNone, [(PStr "2024-06-01T08:00:00Z", PInt 28, PStr "Moderate")])].
Proof. repeat split. Qed.


Lemma two_changi_readings_comparable : timestamps_comparable [r_0800; r_0700].
Proof. eexists. split; reflexivity. Qed.

(** ** Record order *)

(** C3, as the specification words it, fails: two records with the same
    timestamp for one station come out in the order of the record list, so
    swapping the records swaps the sequence. *)
Lemma tied_records_follow_input_order :
  Permutation [changi_0800; changi_0800_again] [changi_0800_again; changi_0800]
  /\ (sd <- ByStation.group_wbgt_by_station
              (payload [changi_0800; changi_0800_again]) ;;
      rs <- dict_getitem (PStr "Changi") sd ;; sorted_by_timestamp rs)
     = Ok [r_0800; r_0800_again]
  /\ (sd <- ByStation.group_wbgt_by_station
              (payload [changi_0800_again; changi_0800]) ;;
      rs <- dict_getitem (PStr "Changi") sd ;; sorted_by_timestamp rs)
     = Ok [r_0800_again; r_0800]
  /\ r_0800 <> r_0800_again.
Proof.
  split; [apply perm_swap|]. split; [reflexivity|]. split; [reflexivity|].
  discriminate.
Qed.

Lemma int_eqb_trans (a b c : Z) :
  (a =? b) = true -> (b =? c) = true -> (a =? c) = true.
Proof. rewrite !Z.eqb_eq. congruence. Qed.

(** C3, witness: 08:00 then 07:00 for "Changi", and the two records
    swapped: one view for every key. *)
Lemma grouping_ignores_record_order_without_ties_witness :
  exists station_data',
    ByStation.group_wbgt_by_station (payload [changi_0700; changi_0800])
    = Ok station_data'
    /\ forall k,
         station_view station_data' k
         = station_view [(PStr "Changi", [r_0800; r_0700])] k.
Proof.
  apply (grouping_ignores_record_order_without_ties
           (H := int_num) (RT := int_runtime) Z.eqb_sym int_eqb_trans
           [changi_0800; changi_0700] [changi_0700; changi_0800]
           [(PStr "Changi", [r_0800; r_0700])]).
  - apply perm_swap.
  - reflexivity.
  - intros k rs Hf. simpl in Hf.
    destruct (key_match k (PStr "Changi")); [|discriminate].
    inversion Hf; subst. split.
    + exact two_changi_readings_comparable.
    + repeat constructor; simpl; intuition discriminate.
Defined.

(** ** Display order *)



(** ** The date check *)



(** ** Empty results *)

(** C5 at a payload with one record and no reading: the grouping is empty,
    the all-stations formatter returns no block at all and its bot sends
    nothing after the fetch, while the station bot replies
    "No records found.". *)
Lemma no_block_for_records_without_readings :
  ByStation.group_wbgt_by_station payload_without_readings = Ok []
  /\ Split.format_wbgt_by_station_split payload_without_readings = Ok []
  /\ Split.handle_date (fun _ => Ok payload_without_readings) "2024-06-01"
     = ([Fetch "2024-06-01"], None)
  /\ ByStation.handle_date (fun _ => Ok payload_without_readings)
       "2024-06-01" None
     = mkOutcome [Fetch "2024-06-01"; ReplyText no_records_message] None None.
Proof. repeat split. Qed.

(** C8, as the specification words it, fails: [{"data": null}] and the
    JSON array [[]] are parsed bodies without a records field, and the
    lookup raises; the station bot reports the error. *)
Lemma null_data_is_an_error :
  records_field_present payload_null_data = false
  /\ records_field_present (PList []) = false
  /\ ByStation.group_wbgt_by_station payload_null_data = Raise AttributeError
  /\ ByStation.group_wbgt_by_station (PList []) = Raise AttributeError
  /\ Split.format_wbgt_by_station_split payload_null_data = Raise AttributeError
  /\ ByStation.handle_date (fun _ => Ok payload_null_data) "2024-06-01" None
     = mkOutcome [Fetch "2024-06-01"; error_reply AttributeError] None None.
Proof. repeat split. Qed.

(** C8, witness: a body with an error code and no data, and the body
    [{"data": null}]. *)
Lemma missing_records_path_is_empty_list_witness :
  (ByStation.group_wbgt_by_station (PDict [("code", PInt 4)]) = Ok []
   /\ Split.format_wbgt_by_station_split (PDict [("code", PInt 4)])
      = Ok [no_records_message]
   /\ ByStation.handle_date (fun _ => Ok (PDict [("code", PInt 4)]))
        "2024-06-01" None
      = mkOutcome [Fetch "2024-06-01"; ReplyText no_records_message] None None)
  /\ (ByStation.group_wbgt_by_station payload_null_data = Raise AttributeError
      /\ ByStation.handle_date (fun _ => Ok payload_null_data)
           "2024-06-01" changi_session
         = mkOutcome [Fetch "2024-06-01"; error_reply AttributeError]
             changi_session None
      /\ Split.handle_date (fun _ => Ok payload_null_data) "2024-06-01"
         = ([Fetch "2024-06-01"; error_reply AttributeError], None)).
Proof.
  destruct (missing_records_path_is_empty_list (PDict [("code", PInt 4)]))
    as [Hmissing _].
  destruct (missing_records_path_is_empty_list payload_null_data)
    as [_ [Hbroken _]].
  destruct (Hmissing eq_refl) as [Hg [Hf Hh]].
  destruct (Hbroken eq_refl) as [_ [Hg' [_ Hh']]].
  split.
  - split; [exact Hg|]. split; [exact Hf|].
    apply (Hh (fun _ => Ok (PDict [("code", PInt 4)])) "2024-06-01" None);
      reflexivity.
  - split; [exact Hg'|].
    apply (Hh' (fun _ => Ok payload_null_data) "2024-06-01" changi_session);
      reflexivity.
Defined.

(** ** Sessions *)

(** C6, witness: "Sentosa" against a session that holds "Changi" only, and
    against no session. *)
Lemma unknown_choice_is_reprompted_witness :
  ByStation.button_handler "Sentosa" changi_session
  = mkOutcome [AnswerCallback; ReplyText not_found_message] changi_session None
  /\ ByStation.button_handler "Sentosa" None
     = mkOutcome [AnswerCallback; ReplyText not_found_message] None None.
Proof.
  split.
  - apply unknown_choice_is_reprompted. simpl. intros [E|[]]. discriminate.
  - apply unknown_choice_is_reprompted. simpl. intros [].
Defined.

(** C7, witness: "2024-06-01" (Changi) then "2024-06-02" (Sentosa): the
    session holds the second result, "Changi" is no longer found and
    "Sentosa" is answered from it. *)
Lemma successful_query_replaces_session_witness :
  let after :=
    stored (ByStation.handle_date upstream_by_date "2024-06-02"
              (stored (ByStation.handle_date upstream_by_date "2024-06-01" None)))
  in
  after = Some [(PStr "Sentosa", [r_sentosa])]
  /\ sent (ByStation.button_handler "Changi" after)
     = [AnswerCallback; ReplyText not_found_message]
  /\ sent (ByStation.button_handler "Sentosa" after)
     = [AnswerCallback;
        ReplyText (join newline
                     ["Station: Sentosa";
                      "  2024-06-02T09:00:00Z  WBGT: None  HeatStress: None"])].
Proof.
  destruct (successful_query_replaces_session
              upstream_by_date upstream_by_date "2024-06-01" "2024-06-02" None
              (payload [sentosa_0900]) [(PStr "Sentosa", [r_sentosa])]
              eq_refl eq_refl eq_refl ltac:(discriminate))
    as [Hafter Hchoice].
  split; [exact Hafter|]. split.
  - rewrite (proj1 (Hchoice "Changi")). reflexivity.
  - rewrite (proj1 (Hchoice "Sentosa")). reflexivity.
Defined.

(** ** Further properties on concrete inputs *)

(** X1, witness: the three readings of the two-station payload. *)
Lemma grouping_keeps_every_reading_witness :
  exists entries,
    payload_entries two_station_payload = Ok entries
    /\ Permutation (all_groups two_station_groups) (map snd entries)
    /\ List.length (all_groups two_station_groups) = List.length entries.
Proof.
  exact (grouping_keeps_every_reading two_station_payload two_station_groups
           eq_refl).
Defined.

(** X2, witness: the grouping of the two-station payload. *)
Lemma grouping_is_well_formed_witness :
  groups_nonempty two_station_groups
  /\ keys_distinct two_station_groups
  /\ (forall k readings,
         dict_find k two_station_groups = Some readings -> readings <> []).
Proof.
  exact (grouping_is_well_formed two_station_payload two_station_groups
           eq_refl).
Defined.

(** X3, witness: "Changi" holds its 08:00 reading of the first record
    before its 07:00 reading of the second. *)
Lemma group_is_in_payload_order_witness :
  exists entries,
    payload_entries two_station_payload = Ok entries
    /\ group_of (PStr "Changi") two_station_groups
       = map snd (filter (fun e => key_match (PStr "Changi") (fst e)) entries)
    /\ (dict_find (PStr "Changi") two_station_groups = None <->
        filter (fun e => key_match (PStr "Changi") (fst e)) entries = []).
Proof.
  exact (group_is_in_payload_order (H := int_num)
           Z.eqb_sym int_eqb_trans
           two_station_payload two_station_groups (PStr "Changi") eq_refl).
Defined.

Lemma two_station_keyboard :
  In (ReplyKeyboard "Choose a station:" [PStr "Changi"; PStr "Sentosa"])
     (sent (ByStation.handle_date upstream_two_stations "2024-06-01" None)).
Proof. right. left. reflexivity. Qed.

(** X4, witness: the keyboard for the two-station payload. *)
Lemma keyboard_lists_the_stored_stations_witness :
  exists body station_data,
    upstream_two_stations (strip "2024-06-01") = Ok body
    /\ ByStation.group_wbgt_by_station body = Ok station_data
    /\ stored (ByStation.handle_date upstream_two_stations "2024-06-01" None)
       = Some station_data
    /\ Permutation [PStr "Changi"; PStr "Sentosa"] (dict_keys station_data)
    /\ List.length [PStr "Changi"; PStr "Sentosa"] = List.length station_data
    /\ (1 <= List.length [PStr "Changi"; PStr "Sentosa"])%nat
    /\ (Forall (fun k => is_str k = true) (dict_keys station_data) ->
        StronglySorted not_after [PStr "Changi"; PStr "Sentosa"]).
Proof.
  exact (keyboard_lists_the_stored_stations upstream_two_stations "2024-06-01"
           None "Choose a station:" [PStr "Changi"; PStr "Sentosa"]
           two_station_keyboard).
Defined.

(** X5, witness: pressing "Changi", the second station stored, on that
    keyboard shows the two readings of "Changi", 07:00 first. *)
Lemma offered_button_resolves_witness :
  stored (ByStation.handle_date upstream_two_stations "2024-06-01" None)
  = Some two_station_groups
  /\ dict_find (PStr "Changi") two_station_groups = Some [r_0800; r_0700]
  /\ ByStation.button_handler "Changi" (Some two_station_groups)
     = mkOutcome
         [AnswerCallback;
          ReplyText
            (join newline
               ["Station: Changi";
                "  2024-06-01T07:00:00Z  WBGT: 28  HeatStress: Low";
                "  2024-06-01T08:00:00Z  WBGT: 29  HeatStress: Moderate"])]
         (Some two_station_groups) None.
Proof.
  destruct (offered_button_resolves upstream_two_stations "2024-06-01" None
              "Choose a station:" [PStr "Changi"; PStr "Sentosa"] "Changi"
              two_station_keyboard (or_introl eq_refl))
    as [body [sd [rs [_ [_ [Hst [Hfind [_ Hbutton]]]]]]]].
  assert (Esd : sd = two_station_groups).
  { assert (E : stored (ByStation.handle_date upstream_two_stations
                          "2024-06-01" None) = Some two_station_groups)
      by reflexivity.
    rewrite E in Hst. inversion Hst. reflexivity. }
  subst sd.
  assert (Ers : rs = [r_0800; r_0700]).
  { assert (E : dict_find (PStr "Changi") two_station_groups
                = Some [r_0800; r_0700]) by reflexivity.
    rewrite E in Hfind. inversion Hfind. reflexivity. }
  subst rs.
  split; [exact Hst|]. split; [exact Hfind|].
  rewrite Hbutton. reflexivity.
Defined.

(** X8, witness: the two-station payload. *)
Lemma split_is_grouping_then_formatting_witness :
  Split.format_wbgt_by_station_split two_station_payload
  = Ok [join newline
          ["Station: Changi";
           "  2024-06-01T07:00:00Z  WBGT: 28  HeatStress: Low";
           "  2024-06-01T08:00:00Z  WBGT: 29  HeatStress: Moderate"];
        join newline
          ["Station: Sentosa";
           "  2024-06-01T08:00:00Z  WBGT: 30  HeatStress: High"]].
Proof.
  rewrite (split_is_grouping_then_formatting two_station_payload _
             eq_refl eq_refl).
  reflexivity.
Defined.

(** X9, witness: one record without readings, and no block. *)
Lemma split_gives_one_block_per_station_witness :
  exists records,
    records_of payload_without_readings = Ok records
    /\ (if py_truthy records
        then exists station_data,
               ByStation.group_wbgt_by_station payload_without_readings
               = Ok station_data
               /\ List.length (@nil string) = List.length station_data
               /\ (@nil string = [] <-> station_data = [])
        else @nil string = [no_records_message]).
Proof.
  exact (split_gives_one_block_per_station payload_without_readings []
           eq_refl).
Defined.

(** X10, witness: 08:00 and 07:00 for "Changi", sorted once and twice. *)
Lemma formatting_sorted_input_changes_nothing_witness :
  sorted_by_timestamp [r_0700; r_0800] = Ok [r_0700; r_0800]
  /\ ByStation.format_station_data (PStr "Changi") [r_0700; r_0800]
     = ByStation.format_station_data (PStr "Changi") [r_0800; r_0700].
Proof.
  exact (formatting_sorted_input_changes_nothing (PStr "Changi")
           [r_0800; r_0700] [r_0700; r_0800] eq_refl).
Defined.

(** X11, witness: status 204 with an empty object, and status 500. *)
Lemma fetch_versions_differ_off_200_witness :
  WbgtBot.fetch_wbgt get_no_content "2024-06-01" = Raise RequestError
  /\ Copies.fetch_wbgt get_no_content "2024-06-01" = Ok (PDict [])
  /\ ByStation.handle_date (Copies.fetch_wbgt get_server_error)
       "2024-06-01" changi_session
     = mkOutcome [Fetch "2024-06-01"; error_reply RequestError]
         changi_session None.
Proof.
  destruct (fetch_versions_differ_off_200 get_no_content "2024-06-01" _ eq_refl)
    as [_ [_ [Hother _]]].
  destruct (fetch_versions_differ_off_200 get_server_error "2024-06-01" _
              eq_refl) as [_ [Herr _]].
  split; [|split].
  - apply Hother; simpl; lia.
  - apply Hother; simpl; lia.
  - destruct Herr as [_ [_ Hh]]; [simpl; lia|].
    apply (Hh "2024-06-01" changi_session); reflexivity.
Defined.

(** X13, witness: " 2024-6-1 " is accepted as the first of June. *)
Lemma date_without_T_is_short_and_real_witness :
  exists y m d,
    strptime_Ymd (strip " 2024-6-1 ") = Ok (y, m, d)
    /\ valid_date y m d = true
    /\ 1 <= m <= 12 /\ 1 <= d <= 31
    /\ (8 <= String.length (strip " 2024-6-1 ") <= 10)%nat.
Proof.
  exact (date_without_T_is_short_and_real " 2024-6-1 "
           eq_refl eq_refl).
Defined.
